(** * Playbook metrics editor: the state logic of the [Metrics] component

    Shallow embedding of
    [webapp/src/components/backstage/playbook_edit/metrics/metrics.tsx].

    The component is a React function component.  Its event handlers are
    closures over the values of one render ([playbook], [curEditingMetric],
    [nextTask], [deletingIdx]); they read those values and enqueue state
    updates through setters.  A handler is embedded as a function from the
    state of the render it was created in to the state after all its setter
    calls have been applied, in call order.  Reads inside a handler refer to
    the render-time state, also after a setter was called (this is what a
    JavaScript closure does, and several properties below depend on it).
    The functional updater given to [setPlaybook] assigns the local
    variable [length] of [saveMetric].  React runs such an updater at the
    call when it can compute the new state at once, and otherwise later,
    when it processes its queue; the state the next render sees is the same
    in both cases, the value [saveMetric] reads from [length] is not.  The
    model takes the moment as a parameter ([UpdaterTiming]). *)

From Stdlib Require Import ZArith List Bool Lia.
From Stdlib Require Strings.String.
Import ListNotations.

Local Open Scope Z_scope.

Set Implicit Arguments.

(** ** JavaScript arrays *)

Module JsArray.

(** [arr[i]]: [undefined] (here [None]) outside of [0 .. length-1]. *)
Definition get {A : Type} (arr : list A) (i : Z) : option A :=
  if i <? 0 then None else nth_error arr (Z.to_nat i).

(** The position [Array.prototype.splice] really starts at: a negative
    [start] counts from the end, and the result is clamped to [0 .. len]. *)
Definition actualStart (len : nat) (start : Z) : nat :=
  if start <? 0
  then Z.to_nat (Z.max (Z.of_nat len + start) 0)
  else Z.to_nat (Z.min start (Z.of_nat len)).

(** [arr.splice(start, deleteCount, ...items)], as the array it leaves. *)
Definition splice {A : Type} (start : Z) (deleteCount : nat)
    (items : list A) (arr : list A) : list A :=
  let from := actualStart (length arr) start in
  let del := Nat.min deleteCount (length arr - from)%nat in
  firstn from arr ++ items ++ skipn (from + del) arr.

(** [arr.flatMap((x, i) => f(i, x))], the callback's results concatenated;
    [from] is the index of the first element. *)
Fixpoint flatMapFrom {A B : Type} (f : nat -> A -> list B) (from : nat)
    (arr : list A) : list B :=
  match arr with
  | [] => []
  | x :: rest => f from x ++ flatMapFrom f (S from) rest
  end.

Definition flatMap {A B : Type} (f : nat -> A -> list B) (arr : list A)
    : list B :=
  flatMapFrom f 0 arr.

End JsArray.

(** ** Data model *)

(** Modelled from the spec: the enum [MetricType] of [src/types/playbook],
    of which the component uses the three members offered in the menu. *)
Inductive MetricType : Type :=
| Duration
| Currency
| Integer.

(** Modelled from the spec: the interface [Metric] of [src/types/playbook],
    a record with [id], [title], [type] and a numeric [target].  A field is
    [None] when the JavaScript object does not have the property: the
    component builds [{}] and [{...undefined, target}] on some paths.  The
    component stores [target] and never computes with it. *)
Module Metric.
Record t : Type := mk {
  id : option String.string;
  title : option String.string;
  type : option MetricType;
  target : option Z
}.

(** [{}] *)
Definition empty : t := mk None None None None.

(** [{...m}] where [m] may be [undefined]. *)
Definition spread (m : option t) : t :=
  match m with
  | Some o => o
  | None => empty
  end.

(** [{...m, target}] where [m] may be [undefined]. *)
Definition withTarget (m : option t) (tgt : Z) : t :=
  let o := spread m in
  mk (id o) (title o) (type o) (Some tgt).

(** The target held by a list entry or draft that may be [undefined]. *)
Definition targetOf (m : option t) : option Z :=
  match m with
  | Some o => target o
  | None => None
  end.
End Metric.

(** [EditingMetric] of [playbook_edit.tsx]: an index and the draft.  The
    draft is [None] when the stored value is [undefined]. *)
Module EditingMetric.
Record t : Type := mk {
  index : Z;
  metric : option Metric.t
}.
End EditingMetric.

Inductive TaskType : Type :=
| add
| edit
| delete.

Module Task.
Record t : Type := mk {
  type : TaskType;
  addType : option MetricType;
  index : option Z
}.
End Task.

(** The sentinel of [useState(-1)] for [deletingIdx]. *)
Definition noDeletingIdx : Z := -1.

(** Modelled from the spec: the playbook type of [src/types/playbook], an
    entity holding the ordered list [metrics]; [rest] stands for all its
    other fields, which the component only copies ([{...pb, metrics}]). *)
Record Playbook (R : Type) : Type := mkPlaybook {
  rest : R;
  metrics : list Metric.t
}.

(** What a render of the component sees: the props ([playbook],
    [curEditingMetric], [disabled], and the flag behind [setChangesMade])
    and the three [useState] cells. *)
Record State (R : Type) : Type := mkState {
  playbook : Playbook R;
  changesMade : bool;
  curEditingMetric : option EditingMetric.t;
  disabled : bool;
  saveMetricToggle : bool;
  nextTask : option Task.t;
  deletingIdx : Z
}.

(** When the updater given to [setPlaybook] runs: during the call of the
    setter, or after the handler has returned. *)
Inductive UpdaterTiming : Type :=
| atCall
| queued.

Section Component.

Variable R : Type.

(** [newMetric] of [src/types/playbook] is not part of the component; the
    handlers are stated for any such function. *)
Variable newMetric : MetricType -> Metric.t.

(** The moment React runs the updater of [setPlaybook] in [saveMetric]. *)
Variable timing : UpdaterTiming.

Abbreviation Pb := (Playbook R).
Abbreviation St := (State R).

(** *** Setters *)

Definition setPlaybook (f : Pb -> Pb) (s : St) : St :=
  mkState (f (playbook s)) (changesMade s) (curEditingMetric s) (disabled s)
    (saveMetricToggle s) (nextTask s) (deletingIdx s).

Definition setChangesMade (b : bool) (s : St) : St :=
  mkState (playbook s) b (curEditingMetric s) (disabled s)
    (saveMetricToggle s) (nextTask s) (deletingIdx s).

Definition setCurEditingMetric (v : option EditingMetric.t) (s : St) : St :=
  mkState (playbook s) (changesMade s) v (disabled s)
    (saveMetricToggle s) (nextTask s) (deletingIdx s).

Definition setSaveMetricToggle (f : bool -> bool) (s : St) : St :=
  mkState (playbook s) (changesMade s) (curEditingMetric s) (disabled s)
    (f (saveMetricToggle s)) (nextTask s) (deletingIdx s).

Definition setNextTask (v : option Task.t) (s : St) : St :=
  mkState (playbook s) (changesMade s) (curEditingMetric s) (disabled s)
    (saveMetricToggle s) v (deletingIdx s).

Definition setDeletingIdx (v : Z) (s : St) : St :=
  mkState (playbook s) (changesMade s) (curEditingMetric s) (disabled s)
    (saveMetricToggle s) (nextTask s) v.

(** [playbook.metrics.length] *)
Definition metricsLength (s : St) : Z :=
  Z.of_nat (length (metrics (playbook s))).

(** *** Handlers *)

Definition addMetric (metricType : MetricType) (index : Z) (s : St) : St :=
  setChangesMade true
    (setCurEditingMetric
       (Some (EditingMetric.mk index (Some (newMetric metricType)))) s).

Definition requestAddMetric (addType : MetricType) (s : St) : St :=
  match curEditingMetric s with
  | None => addMetric addType (metricsLength s) s
  | Some _ =>
      setSaveMetricToggle negb
        (setNextTask (Some (Task.mk add (Some addType) None)) s)
  end.

Definition requestEditMetric (index : Z) (s : St) : St :=
  match curEditingMetric s with
  | None =>
      setCurEditingMetric
        (Some (EditingMetric.mk index
           (Some (Metric.spread (JsArray.get (metrics (playbook s)) index)))))
        s
  | Some _ =>
      setSaveMetricToggle negb
        (setNextTask (Some (Task.mk edit None (Some index))) s)
  end.

(** [!curEditingMetric || curEditingMetric.index === index] *)
Definition deleteIsImmediate (index : Z) (s : St) : bool :=
  match curEditingMetric s with
  | None => true
  | Some cur => EditingMetric.index cur =? index
  end.

Definition requestDeleteMetric (index : Z) (s : St) : St :=
  if deleteIsImmediate index s
  then setDeletingIdx index s
  else
    setSaveMetricToggle negb
      (setNextTask (Some (Task.mk delete None (Some index))) s).

(** [nextTask?.addType || MetricType.Duration]: every member of the enum
    other than [Duration] is taken to be truthy. *)
Definition addTypeOrDefault (t : Task.t) : MetricType :=
  match Task.addType t with
  | Some ty => ty
  | None => Duration
  end.

(** [nextTask.index === undefined ? -1 : nextTask.index] *)
Definition indexOrDefault (t : Task.t) : Z :=
  match Task.index t with
  | Some i => i
  | None => -1
  end.

(** The first half of [saveMetric]: the commit of the open draft.  Returns
    the state after the two setter calls and the value the local variable
    [length] has when the handler goes on: [metrics.length] of the updated
    list if the updater has run by then, and still
    [playbook.metrics.length] of the render if it has not. *)
Definition commitDraft (target : Z) (s : St) : St * Z :=
  match curEditingMetric s with
  | Some cur =>
      let metric := Metric.withTarget (EditingMetric.metric cur) target in
      let s1 :=
        setPlaybook
          (fun pb =>
             mkPlaybook (rest pb)
               (JsArray.splice (EditingMetric.index cur) 1 [metric]
                  (metrics pb)))
          s in
      (setChangesMade true s1,
       match timing with
       | atCall => metricsLength s1
       | queued => metricsLength s
       end)
  | None => (s, metricsLength s)
  end.

Definition saveMetric (target : Z) (s : St) : St :=
  let '(s1, length) := commitDraft target s in
  let s2 :=
    match nextTask s with
    | Some t =>
        match Task.type t with
        | add => addMetric (addTypeOrDefault t) length s1
        | edit =>
            let index := indexOrDefault t in
            setCurEditingMetric
              (Some (EditingMetric.mk index
                 (JsArray.get (metrics (playbook s)) index)))
              s1
        | delete =>
            let index := indexOrDefault t in
            setDeletingIdx index s1
        end
    | None => setCurEditingMetric None s1
    end in
  setNextTask None s2.

Definition confirmedDelete (s : St) : St :=
  setCurEditingMetric None
    (setDeletingIdx (-1)
       (setChangesMade true
          (setPlaybook
             (fun pb =>
                mkPlaybook (rest pb)
                  (JsArray.splice (deletingIdx s) 1 [] (metrics pb)))
             s))).

(** [saveFailed={() => setNextTask(null)}] *)
Definition saveFailed (s : St) : St := setNextTask None s.

(** [onCancel={() => setDeletingIdx(-1)}] *)
Definition cancelDelete (s : St) : St := setDeletingIdx (-1) s.

(** The [setMetric] prop handed to the editor row. *)
Definition setMetric (setState : option Metric.t -> Metric.t) (s : St) : St :=
  setCurEditingMetric
    (match curEditingMetric s with
     | Some prevState =>
         Some (EditingMetric.mk (EditingMetric.index prevState)
                 (Some (setState (EditingMetric.metric prevState))))
     | None => Some (EditingMetric.mk (-1) (Some Metric.empty))
     end)
    s.

(** *** Rendering *)

(** The local [metrics] of the render: the committed list with the draft
    spliced in.  An entry is [None] where the draft is [undefined]. *)
Definition displayedMetrics (s : St) : list (option Metric.t) :=
  let metrics := map Some (metrics (playbook s)) in
  match curEditingMetric s with
  | Some cur =>
      JsArray.splice (EditingMetric.index cur) 1 [EditingMetric.metric cur]
        metrics
  | None => metrics
  end.

(** [show] of the tooltip: [metrics.length >= 4]. *)
Definition maxMetricsTooltipShown (s : St) : bool :=
  (4 <=? length (displayedMetrics s))%nat.

(** [disabled] of the "Add Metric" menu: [disabled || metrics.length >= 4]. *)
Definition addMetricDisabled (s : St) : bool :=
  disabled s || (4 <=? length (displayedMetrics s))%nat.

(** [show] of the confirmation modal: [deletingIdx >= 0]. *)
Definition confirmModalShown (s : St) : bool := 0 <=? deletingIdx s.

(** The row at [idx] is the editor: [idx === curEditingMetric?.index]. *)
Definition rowIsEditor (idx : Z) (s : St) : bool :=
  match curEditingMetric s with
  | Some cur => idx =? EditingMetric.index cur
  | None => false
  end.

(** The rows of [metrics.map((metric, idx) => ...)]: the editor row, whose
    [onAdd] is [saveMetric] and whose [saveFailed] drops the pending task,
    or a read-only row with its edit and delete buttons. *)
Inductive Row : Type :=
| MetricEdit (idx : Z)
| MetricView (idx : Z).

Definition renderRow (s : St) (idx : nat) : Row :=
  if rowIsEditor (Z.of_nat idx) s
  then MetricEdit (Z.of_nat idx)
  else MetricView (Z.of_nat idx).

Definition rows (s : St) : list Row :=
  map (renderRow s) (seq 0 (length (displayedMetrics s))).

(** The editor is open at index [i]: the render shows the editor row there.
    Only that row can call [saveMetric] and [saveFailed]. *)
Definition editorOpenAt (i : Z) (s : St) : Prop := In (MetricEdit i) (rows s).

(** The pending task asks for [type] at [index] (edit and delete tasks). *)
Definition pendingAt (type : TaskType) (index : Z) (s : St) : Prop :=
  exists t, nextTask s = Some t /\ Task.type t = type /\ Task.index t = Some index.

(** The pending task asks to add a metric of type [addType]. *)
Definition pendingAdd (addType : MetricType) (s : St) : Prop :=
  exists t, nextTask s = Some t /\ Task.type t = add /\ Task.addType t = Some addType.

End Component.

(** ** Concrete runs *)

Module Sample.
Import String.
Local Open Scope string_scope.

Definition metricA : Metric.t :=
  Metric.mk (Some "id-a") (Some "A") (Some Duration) (Some 10).
Definition metricB : Metric.t :=
  Metric.mk (Some "id-b") (Some "B") (Some Currency) (Some 20).
Definition metricC : Metric.t :=
  Metric.mk (Some "id-c") (Some "C") (Some Integer) (Some 30).

(** An instance of [newMetric]: not yet persisted ([id] is the empty
    string), of the given type, no target yet. *)
Definition newMetric (ty : MetricType) : Metric.t :=
  Metric.mk (Some "") (Some "") (Some ty) None.

(** [metrics = [A, B, C]], nothing open. *)
Definition idle : State String.string :=
  mkState (mkPlaybook "incident playbook" [metricA; metricB; metricC])
    false None false false None noDeletingIdx.

(** The same, read-only ([disabled] is set). *)
Definition idleDisabled : State String.string :=
  mkState (mkPlaybook "incident playbook" [metricA; metricB; metricC])
    false None true false None noDeletingIdx.

(** Edit clicked on row 1. *)
Definition editing1 : State String.string := requestEditMetric 1 idle.

(** Then delete clicked on row 2, edit on row 0, edit on row 1 (reached
    only by a direct call), "Add Metric / Integer". *)
Definition editing1_delete2 : State String.string :=
  requestDeleteMetric 2 editing1.
Definition editing1_edit0 : State String.string :=
  requestEditMetric 0 editing1.
Definition editing1_edit1 : State String.string :=
  requestEditMetric 1 editing1.
Definition editing1_addInteger : State String.string :=
  requestAddMetric newMetric Integer editing1.

(** Delete clicked on row 1 with nothing open. *)
Definition deleting1 : State String.string := requestDeleteMetric 1 idle.

End Sample.

(** ** The rest of the render, and the component as an event handler *)

(** The two texts of the confirmation prompt. *)
Inductive DeleteMessage : Type :=
| deleteBaseMessage
| deleteExistingMessage.

Section Events.

Variable R : Type.
Variable newMetric : MetricType -> Metric.t.
Variable timing : UpdaterTiming.

Abbreviation St := (State R).

(** [m.id !== '']: an absent [id] is [undefined], which is not [''] . *)
Definition idIsNotEmpty (m : Metric.t) : bool :=
  match Metric.id m with
  | Some String.EmptyString => false
  | _ => true
  end.

(** [deleteMessage]: the text about historical data is chosen when
    [deletingIdx] is an index of the committed list and the metric there
    has an [id].  The [&&] chain reads the entry only inside the bounds. *)
Definition deleteMessage (s : St) : DeleteMessage :=
  if (0 <=? deletingIdx s) && (deletingIdx s <? metricsLength s)
  then
    match JsArray.get (metrics (playbook s)) (deletingIdx s) with
    | Some m =>
        if idIsNotEmpty m then deleteExistingMessage else deleteBaseMessage
    | None => deleteBaseMessage
    end
  else deleteBaseMessage.

(** The [otherTitles] prop of the editor row at [idx]:
    [playbook.metrics.flatMap((m, i) => (i === idx ? [] : m.title))]. *)
Definition otherTitles (idx : Z) (s : St) : list (option String.string) :=
  JsArray.flatMap
    (fun i m => if Z.of_nat i =? idx then [] else [Metric.title m])
    (metrics (playbook s)).

(** What the user and the editor row can do to the component: the menu
    entries, the buttons of the rows, the callbacks handed to the editor
    row and the two buttons of the prompt. *)
Inductive Event : Type :=
| ClickAdd (addType : MetricType)
| ClickEdit (idx : Z)
| ClickDelete (idx : Z)
| EditorSetMetric (setState : option Metric.t -> Metric.t)
| EditorSave (target : Z)
| EditorSaveFailed
| ModalConfirm
| ModalCancel.

Definition handle (e : Event) (s : St) : St :=
  match e with
  | ClickAdd addType => requestAddMetric newMetric addType s
  | ClickEdit idx => requestEditMetric idx s
  | ClickDelete idx => requestDeleteMetric idx s
  | EditorSetMetric setState => setMetric setState s
  | EditorSave target => saveMetric newMetric timing target s
  | EditorSaveFailed => saveFailed s
  | ModalConfirm => confirmedDelete s
  | ModalCancel => cancelDelete s
  end.

(** One render and handler call after the other. *)
Definition run (es : list Event) (s : St) : St :=
  fold_left (fun st e => handle e st) es s.

(** The request [e] is put off in [s]: it becomes the pending task and the
    open editor is asked to save. *)
Definition deferred (e : Event) (s : St) : bool :=
  match e, curEditingMetric s with
  | ClickAdd _, Some _ => true
  | ClickEdit _, Some _ => true
  | ClickDelete idx, Some _ => negb (deleteIsImmediate idx s)
  | _, _ => false
  end.

Definition isModalConfirm (e : Event) : bool :=
  match e with
  | ModalConfirm => true
  | _ => false
  end.

End Events.

(** More concrete runs. *)
Module Scenario.
Import String.
Local Open Scope string_scope.

(** A metric added and saved in this session: no [id] yet. *)
Definition metricNew : Metric.t :=
  Metric.mk (Some "") (Some "N") (Some Integer) (Some 7).

(** [metrics = [A, N]], the prompt open for index 1. *)
Definition deletingUnsaved : State String.string :=
  mkState (mkPlaybook "incident playbook" [Sample.metricA; metricNew])
    true None false false None 1.

(** Three metrics, a fourth being added. *)
Definition addingFourth : State String.string :=
  requestAddMetric Sample.newMetric Duration Sample.idle.

(** Editing row 1 of [A, B, C] after a title change. *)
Definition retitle (m : option Metric.t) : Metric.t :=
  Metric.mk (Metric.id (Metric.spread m)) (Some "B2")
    (Metric.type (Metric.spread m)) (Metric.target (Metric.spread m)).

(** [B] saved with target 5. *)
Definition metricB5 : Metric.t :=
  Metric.mk (Some "id-b") (Some "B") (Some Currency) (Some 5).

(** [B] retitled by [retitle] and saved with target 5. *)
Definition metricB2_5 : Metric.t :=
  Metric.mk (Some "id-b") (Some "B2") (Some Currency) (Some 5).

(** [metrics = [A, B]], nothing open; then "Add Metric / Duration", and
    "Add Metric / Integer" while that draft is still open. *)
Definition twoMetrics : State String.string :=
  mkState (mkPlaybook "incident playbook" [Sample.metricA; Sample.metricB])
    false None false false None noDeletingIdx.
Definition addingThird : State String.string :=
  requestAddMetric Sample.newMetric Duration twoMetrics.

(** The two new metrics as saved with targets 7 and 9. *)
Definition savedDuration7 : Metric.t :=
  Metric.mk (Some "") (Some "") (Some Duration) (Some 7).

End Scenario.

Module JsArrayFacts.
Import JsArray.

Lemma actualStart_inside (len : nat) (i : Z) :
  0 <= i <= Z.of_nat len -> actualStart len i = Z.to_nat i.
Proof.
  intros Hi. unfold actualStart.
  destruct (i <? 0) eqn:Hneg.
  - apply Z.ltb_lt in Hneg. lia.
  - f_equal. lia.
Qed.

Lemma nth_error_patch {A : Type} (l items : list A) (n m k : nat) :
  (n <= length l)%nat ->
  nth_error (firstn n l ++ items ++ skipn m l) k =
    if (k <? n)%nat then nth_error l k
    else if (k <? n + length items)%nat then nth_error items (k - n)
    else nth_error l (m + (k - n - length items)).
Proof.
  intros Hn.
  assert (Hlen : length (firstn n l) = n) by (rewrite length_firstn; lia).
  destruct (k <? n)%nat eqn:Hk.
  - rewrite nth_error_app1 by (apply Nat.ltb_lt in Hk; lia).
    rewrite nth_error_firstn, Hk. reflexivity.
  - apply Nat.ltb_ge in Hk.
    rewrite nth_error_app2 by lia. rewrite Hlen.
    destruct (k <? n + length items)%nat eqn:Hk2.
    + apply Nat.ltb_lt in Hk2. rewrite nth_error_app1 by lia. reflexivity.
    + apply Nat.ltb_ge in Hk2. rewrite nth_error_app2 by lia.
      rewrite nth_error_skipn. reflexivity.
Qed.


Lemma actualStart_le (len : nat) (start : Z) :
  (actualStart len start <= len)%nat.
Proof.
  unfold actualStart. destruct (start <? 0) eqn:Hneg.
  - apply Z.ltb_lt in Hneg. lia.
  - lia.
Qed.

Lemma length_splice {A : Type} (start : Z) (d : nat) (items l : list A) :
  length (splice start d items l) =
    (actualStart (length l) start + length items +
       (length l - (actualStart (length l) start +
                      Nat.min d (length l - actualStart (length l) start))))%nat.
Proof.
  unfold splice. cbv zeta.
  pose proof (actualStart_le (length l) start) as Hle.
  rewrite !length_app, length_firstn, length_skipn. lia.
Qed.

(** Replacing one element at a position of the list, or appending at its
    end: the shape [saveMetric] and the render rely on. *)
Lemma splice_replace_inside {A : Type} (i : Z) (x : A) (l : list A) :
  0 <= i <= Z.of_nat (length l) ->
  splice i 1 [x] l =
    firstn (Z.to_nat i) l ++ [x] ++ skipn (S (Z.to_nat i)) l.
Proof.
  intros Hi. unfold splice. cbv zeta.
  rewrite (actualStart_inside _ Hi).
  destruct (Z.eq_dec i (Z.of_nat (length l))) as [Heq | Hne].
  - replace (Z.to_nat i) with (length l) by lia.
    rewrite Nat.sub_diag, Nat.min_0_r, Nat.add_0_r.
    rewrite !skipn_all2 by lia. reflexivity.
  - replace (Nat.min 1 (length l - Z.to_nat i)) with 1%nat by lia.
    rewrite Nat.add_1_r. reflexivity.
Qed.

Lemma get_splice_replace_same {A : Type} (i : Z) (x : A) (l : list A) :
  0 <= i <= Z.of_nat (length l) ->
  get (splice i 1 [x] l) i = Some x.
Proof.
  intros Hi. rewrite (splice_replace_inside _ _ Hi). unfold get.
  destruct (i <? 0) eqn:Hneg; [apply Z.ltb_lt in Hneg; lia |].
  rewrite nth_error_patch by lia.
  rewrite Nat.ltb_irrefl. cbn [length].
  replace (Z.to_nat i <? Z.to_nat i + 1)%nat with true
    by (symmetry; apply Nat.ltb_lt; lia).
  rewrite Nat.sub_diag. reflexivity.
Qed.

Lemma get_splice_replace_other {A : Type} (i k : Z) (x : A) (l : list A) :
  0 <= i <= Z.of_nat (length l) ->
  k <> i ->
  get (splice i 1 [x] l) k = get l k.
Proof.
  intros Hi Hk. rewrite (splice_replace_inside _ _ Hi). unfold get.
  destruct (k <? 0) eqn:Hneg; [reflexivity |].
  apply Z.ltb_ge in Hneg.
  rewrite nth_error_patch by lia. cbn [length].
  destruct (Z.to_nat k <? Z.to_nat i)%nat eqn:Hlt; [reflexivity |].
  apply Nat.ltb_ge in Hlt.
  replace (Z.to_nat k <? Z.to_nat i + 1)%nat with false
    by (symmetry; apply Nat.ltb_ge; lia).
  f_equal. lia.
Qed.

Lemma length_splice_replace {A : Type} (i : Z) (x : A) (l : list A) :
  0 <= i < Z.of_nat (length l) ->
  length (splice i 1 [x] l) = length l.
Proof.
  intros Hi. rewrite length_splice.
  rewrite actualStart_inside by lia. cbn [length]. lia.
Qed.

Lemma length_splice_append {A : Type} (x : A) (l : list A) :
  length (splice (Z.of_nat (length l)) 1 [x] l) = S (length l).
Proof.
  rewrite length_splice.
  rewrite actualStart_inside by lia. cbn [length]. lia.
Qed.

(** Removing one element at a position of the list: [confirmedDelete]. *)
Lemma splice_remove_inside {A : Type} (d : Z) (l : list A) :
  0 <= d < Z.of_nat (length l) ->
  splice d 1 [] l = firstn (Z.to_nat d) l ++ skipn (S (Z.to_nat d)) l.
Proof.
  intros Hd. unfold splice. cbv zeta.
  rewrite actualStart_inside by lia.
  replace (Nat.min 1 (length l - Z.to_nat d)) with 1%nat by lia.
  rewrite Nat.add_1_r. reflexivity.
Qed.

Lemma get_splice_remove {A : Type} (d k : Z) (l : list A) :
  0 <= d < Z.of_nat (length l) ->
  get (splice d 1 [] l) k = if k <? d then get l k else get l (k + 1).
Proof.
  intros Hd. rewrite (splice_remove_inside _ Hd). unfold get.
  destruct (k <? 0) eqn:Hneg.
  - apply Z.ltb_lt in Hneg.
    replace (k <? d) with true by (symmetry; apply Z.ltb_lt; lia).
    reflexivity.
  - apply Z.ltb_ge in Hneg.
    replace (k + 1 <? 0) with false by (symmetry; apply Z.ltb_ge; lia).
    change (firstn (Z.to_nat d) l ++ skipn (S (Z.to_nat d)) l)
      with (firstn (Z.to_nat d) l ++ [] ++ skipn (S (Z.to_nat d)) l).
    rewrite nth_error_patch by lia. cbn [length].
    destruct (k <? d) eqn:Hkd.
    + apply Z.ltb_lt in Hkd.
      replace (Z.to_nat k <? Z.to_nat d)%nat with true
        by (symmetry; apply Nat.ltb_lt; lia).
      reflexivity.
    + apply Z.ltb_ge in Hkd.
      replace (Z.to_nat k <? Z.to_nat d)%nat with false
        by (symmetry; apply Nat.ltb_ge; lia).
      replace (Z.to_nat k <? Z.to_nat d + 0)%nat with false
        by (symmetry; apply Nat.ltb_ge; lia).
      f_equal. lia.
Qed.

Lemma length_splice_remove {A : Type} (d : Z) (l : list A) :
  0 <= d < Z.of_nat (length l) ->
  S (length (splice d 1 [] l)) = length l.
Proof.
  intros Hd. rewrite length_splice.
  rewrite actualStart_inside by lia. cbn [length]. lia.
Qed.

End JsArrayFacts.

(** ** Properties of the component *)

Section Properties.

Variable R : Type.
Variable newMetric : MetricType -> Metric.t.
Variable timing : UpdaterTiming.

Abbreviation St := (State R).

Import JsArrayFacts.

(** *** When the editor row is rendered *)

Lemma length_displayedMetrics_editing (s : St) (cur : EditingMetric.t) :
  curEditingMetric s = Some cur ->
  0 <= EditingMetric.index cur ->
  Z.of_nat (length (displayedMetrics s)) =
    if EditingMetric.index cur <? metricsLength s
    then metricsLength s
    else metricsLength s + 1.
Proof.
  intros Hcur Hpos. unfold displayedMetrics, metricsLength. rewrite Hcur.
  rewrite length_splice, length_map. cbn [length].
  unfold JsArray.actualStart.
  destruct (EditingMetric.index cur <? 0) eqn:Hneg;
    [apply Z.ltb_lt in Hneg; lia |].
  destruct (EditingMetric.index cur <? Z.of_nat (length (metrics (playbook s))))
    eqn:Hin.
  - apply Z.ltb_lt in Hin. lia.
  - apply Z.ltb_ge in Hin. lia.
Qed.

Lemma editorOpenAt_inv (i : Z) (s : St) :
  editorOpenAt i s ->
  exists cur,
    curEditingMetric s = Some cur /\
    EditingMetric.index cur = i /\
    0 <= i <= metricsLength s.
Proof.
  unfold editorOpenAt, rows. intros Hin.
  apply in_map_iff in Hin. destruct Hin as [k [Hrow Hk]].
  apply in_seq in Hk.
  unfold renderRow, rowIsEditor in Hrow.
  destruct (curEditingMetric s) as [cur |] eqn:Hcur; [| discriminate].
  destruct (Z.of_nat k =? EditingMetric.index cur) eqn:Heq; [| discriminate].
  apply Z.eqb_eq in Heq. injection Hrow as Hi.
  exists cur. split; [reflexivity |]. split; [lia |].
  assert (Hpos : 0 <= EditingMetric.index cur) by lia.
  pose proof (length_displayedMetrics_editing s Hcur Hpos) as Hlen.
  destruct (EditingMetric.index cur <? metricsLength s) eqn:Hlt.
  - apply Z.ltb_lt in Hlt. lia.
  - lia.
Qed.

Lemma editorOpenAt_intro (s : St) (cur : EditingMetric.t) :
  curEditingMetric s = Some cur ->
  0 <= EditingMetric.index cur <= metricsLength s ->
  editorOpenAt (EditingMetric.index cur) s.
Proof.
  intros Hcur Hrange. unfold editorOpenAt, rows.
  apply in_map_iff. exists (Z.to_nat (EditingMetric.index cur)). split.
  - unfold renderRow, rowIsEditor. rewrite Hcur.
    rewrite Z2Nat.id by lia. rewrite Z.eqb_refl. reflexivity.
  - apply in_seq.
    assert (Hpos : 0 <= EditingMetric.index cur) by lia.
    pose proof (length_displayedMetrics_editing s Hcur Hpos) as Hlen.
    destruct (EditingMetric.index cur <? metricsLength s) eqn:Hlt.
    + apply Z.ltb_lt in Hlt. lia.
    + lia.
Qed.

(** *** What [saveMetric] does to the playbook *)

Lemma playbook_saveMetric_editing (target : Z) (s : St) (cur : EditingMetric.t) :
  curEditingMetric s = Some cur ->
  playbook (saveMetric newMetric timing target s) =
    mkPlaybook (rest (playbook s))
      (JsArray.splice (EditingMetric.index cur) 1
         [Metric.withTarget (EditingMetric.metric cur) target]
         (metrics (playbook s))).
Proof.
  intros Hcur. unfold saveMetric, commitDraft. rewrite Hcur.
  destruct (nextTask s) as [t |]; [destruct (Task.type t) |]; reflexivity.
Qed.

Lemma playbook_saveMetric_idle (target : Z) (s : St) :
  curEditingMetric s = None ->
  playbook (saveMetric newMetric timing target s) = playbook s.
Proof.
  intros Hcur. unfold saveMetric, commitDraft. rewrite Hcur.
  destruct (nextTask s) as [t |]; [destruct (Task.type t) |]; reflexivity.
Qed.

Lemma nextTask_saveMetric (target : Z) (s : St) :
  nextTask (saveMetric newMetric timing target s) = None.
Proof.
  unfold saveMetric. destruct (commitDraft timing target s) as [s1 len].
  reflexivity.
Qed.

Lemma target_withTarget (m : option Metric.t) (target : Z) :
  Metric.target (Metric.withTarget m target) = Some target /\
  Metric.id (Metric.withTarget m target) = Metric.id (Metric.spread m) /\
  Metric.title (Metric.withTarget m target) = Metric.title (Metric.spread m) /\
  Metric.type (Metric.withTarget m target) = Metric.type (Metric.spread m).
Proof. repeat split. Qed.

(** The object [{...draft, target}], field by field: the fields of the
    draft, or none of them when the draft is [undefined], and the new
    target. *)
Lemma withTarget_fields (m : option Metric.t) (target : Z) :
  match m with
  | Some d =>
      Metric.mk (Metric.id d) (Metric.title d) (Metric.type d) (Some target)
  | None => Metric.mk None None None (Some target)
  end = Metric.withTarget m target.
Proof. destruct m as [d |]; reflexivity. Qed.

(** C5.  With the editor open at index [i], [saveMetric target] puts the
    draft, with its [id], [title] and [type] as they are and its [target]
    set to the given one, at index [i] of the metrics
    list; every other index of the list and every other field of the
    playbook are as before; the list keeps its length when [i] is the index
    of a committed metric and grows by one when the draft is a new metric at
    the end; the change flag is raised. *)
Theorem saveMetric_replaces_only_the_draft
    (target : Z) (s : St) (cur : EditingMetric.t) :
  curEditingMetric s = Some cur ->
  editorOpenAt (EditingMetric.index cur) s ->
  let i := EditingMetric.index cur in
  let s' := saveMetric newMetric timing target s in
  let committed :=
    match EditingMetric.metric cur with
    | Some d =>
        Metric.mk (Metric.id d) (Metric.title d) (Metric.type d) (Some target)
    | None => Metric.mk None None None (Some target)
    end in
  JsArray.get (metrics (playbook s')) i = Some committed /\
  Metric.target committed = Some target /\
  (forall d, EditingMetric.metric cur = Some d ->
     Metric.id committed = Metric.id d /\
     Metric.title committed = Metric.title d /\
     Metric.type committed = Metric.type d) /\
  (forall k, k <> i ->
     JsArray.get (metrics (playbook s')) k =
     JsArray.get (metrics (playbook s)) k) /\
  rest (playbook s') = rest (playbook s) /\
  (i < metricsLength s -> metricsLength s' = metricsLength s) /\
  (i = metricsLength s -> metricsLength s' = metricsLength s + 1) /\
  changesMade s' = true.
Proof.
  intros Hcur Hopen i s' committed.
  pose proof Hopen as Hinv. apply editorOpenAt_inv in Hinv.
  destruct Hinv as [cur' [_ [_ Hrange]]].
  fold i in Hrange. unfold metricsLength in Hrange.
  assert (Hc : committed =
               Metric.withTarget (EditingMetric.metric cur) target)
    by apply withTarget_fields.
  assert (Hpb := playbook_saveMetric_editing target s Hcur).
  fold s' i in Hpb. rewrite <- Hc in Hpb.
  unfold metricsLength. rewrite Hpb. cbn [metrics rest].
  split; [apply get_splice_replace_same; exact Hrange |].
  split; [subst committed; destruct (EditingMetric.metric cur); reflexivity |].
  split.
  { intros d Hd. subst committed. rewrite Hd. repeat split. }
  split; [intros k Hk; apply get_splice_replace_other; assumption |].
  split; [reflexivity |].
  split; [intros Hlt; rewrite length_splice_replace by lia; reflexivity |].
  split; [intros Heq; rewrite Heq, length_splice_append; lia |].
  subst s'. unfold saveMetric, commitDraft. rewrite Hcur.
  destruct (nextTask s) as [t |]; [destruct (Task.type t) |]; reflexivity.
Qed.

(** C2.  With the editor open at index [i] and a pending edit task for an
    index [j] other than [i], [saveMetric target] leaves the editor open at
    [j] with, as draft, the metric at index [j] of the list after the
    commit (the list with the previous draft, its target set, spliced in at
    [i]); the pending task is consumed. *)
Theorem saveMetric_pending_edit_opens_other_row
    (target : Z) (s : St) (cur : EditingMetric.t) (j : Z) :
  curEditingMetric s = Some cur ->
  editorOpenAt (EditingMetric.index cur) s ->
  pendingAt edit j s ->
  EditingMetric.index cur <> j ->
  let s' := saveMetric newMetric timing target s in
  metrics (playbook s') =
    JsArray.splice (EditingMetric.index cur) 1
      [Metric.withTarget (EditingMetric.metric cur) target]
      (metrics (playbook s)) /\
  curEditingMetric s' =
    Some (EditingMetric.mk j (JsArray.get (metrics (playbook s')) j)) /\
  nextTask s' = None.
Proof.
  intros Hcur Hopen [t [Htask [Hty Hidx]]] Hij s'.
  pose proof Hopen as Hinv. apply editorOpenAt_inv in Hinv.
  destruct Hinv as [cur' [_ [_ Hrange]]].
  unfold metricsLength in Hrange.
  assert (Hpb := playbook_saveMetric_editing target s Hcur). fold s' in Hpb.
  split; [rewrite Hpb; reflexivity |].
  split; [| apply nextTask_saveMetric].
  rewrite Hpb. cbn [metrics].
  rewrite get_splice_replace_other by (assumption || congruence).
  subst s'. unfold saveMetric, commitDraft. rewrite Hcur, Htask, Hty.
  unfold indexOrDefault. rewrite Hidx. reflexivity.
Qed.

(** Appending at the end: what the render shows for a new draft. *)
Lemma splice_at_length_appends {A : Type} (x : A) (l : list A) :
  JsArray.splice (Z.of_nat (length l)) 1 [x] l = l ++ [x].
Proof.
  rewrite splice_replace_inside by lia.
  rewrite Nat2Z.id, firstn_all, skipn_all2 by lia. reflexivity.
Qed.

(** The add branch of [saveMetric]: the draft is committed and a new
    draft [newMetric T] opens at the index held by [length], which is the
    length of the list after the commit if the updater has run and the
    length of the list of the render if it has not. *)
Lemma saveMetric_pending_add_opens_at_length
    (target : Z) (s : St) (cur : EditingMetric.t) (T : MetricType) :
  curEditingMetric s = Some cur ->
  pendingAdd T s ->
  let s' := saveMetric newMetric timing target s in
  curEditingMetric s' =
    Some (EditingMetric.mk
            match timing with
            | atCall => metricsLength s'
            | queued => metricsLength s
            end
            (Some (newMetric T))) /\
  nextTask s' = None.
Proof.
  intros Hcur [t [Htask [Hty Hadd]]]. cbv zeta.
  split; [| apply nextTask_saveMetric].
  unfold metricsLength at 1.
  rewrite (playbook_saveMetric_editing target s Hcur). cbn [metrics].
  unfold saveMetric, commitDraft. rewrite Hcur, Htask, Hty.
  unfold addTypeOrDefault. rewrite Hadd.
  destruct timing; reflexivity.
Qed.

(** When [length] is up to date (the updater has run, or the draft
    replaces a committed metric, so that the commit keeps the length), the
    new draft opens at the length of the list after the commit and the
    render shows it after all committed metrics. *)
Lemma saveMetric_pending_add_appends_when_length_is_current
    (target : Z) (s : St) (cur : EditingMetric.t) (T : MetricType) :
  curEditingMetric s = Some cur ->
  pendingAdd T s ->
  timing = atCall \/ 0 <= EditingMetric.index cur < metricsLength s ->
  let s' := saveMetric newMetric timing target s in
  curEditingMetric s' =
    Some (EditingMetric.mk (metricsLength s') (Some (newMetric T))) /\
  displayedMetrics s' =
    map Some (metrics (playbook s')) ++ [Some (newMetric T)].
Proof.
  intros Hcur Hpend Hcurrent. cbv zeta.
  destruct (saveMetric_pending_add_opens_at_length target Hcur Hpend)
    as [Hed _].
  assert (Hidx : match timing with
                 | atCall => metricsLength (saveMetric newMetric timing target s)
                 | queued => metricsLength s
                 end = metricsLength (saveMetric newMetric timing target s)).
  { unfold metricsLength in *.
    rewrite (playbook_saveMetric_editing target s Hcur). cbn [metrics].
    destruct Hcurrent as [Hat | Hin].
    - rewrite Hat. reflexivity.
    - rewrite length_splice_replace by exact Hin.
      destruct timing; reflexivity. }
  rewrite Hidx in Hed.
  split; [exact Hed |].
  unfold displayedMetrics. rewrite Hed.
  cbn [EditingMetric.index EditingMetric.metric].
  unfold metricsLength.
  rewrite <- (length_map Some
                (metrics (playbook (saveMetric newMetric timing target s)))).
  apply splice_at_length_appends.
Qed.

(** When [length] is stale (the updater has not run and the open draft
    is a new one at the end of the list), the new draft opens at the index
    of the metric that was just committed. *)
Lemma saveMetric_pending_add_queued_opens_on_committed_row
    (target : Z) (s : St) (cur : EditingMetric.t) (T : MetricType) :
  curEditingMetric s = Some cur ->
  pendingAdd T s ->
  timing = queued ->
  EditingMetric.index cur = metricsLength s ->
  let s' := saveMetric newMetric timing target s in
  curEditingMetric s' =
    Some (EditingMetric.mk (EditingMetric.index cur) (Some (newMetric T))) /\
  JsArray.get (metrics (playbook s')) (EditingMetric.index cur) =
    Some (Metric.withTarget (EditingMetric.metric cur) target) /\
  metricsLength s' = EditingMetric.index cur + 1.
Proof.
  intros Hcur Hpend Hq Hend. cbv zeta.
  destruct (saveMetric_pending_add_opens_at_length target Hcur Hpend)
    as [Hed _].
  rewrite Hq in Hed at 2. rewrite <- Hend in Hed.
  split; [exact Hed |].
  unfold metricsLength in *.
  rewrite (playbook_saveMetric_editing target s Hcur). cbn [metrics].
  rewrite Hend. split.
  - apply get_splice_replace_same. lia.
  - rewrite length_splice_append. lia.
Qed.

(** C4.  When [deletingIdx] is an index [d] of the metrics list,
    [confirmedDelete] leaves the list without its element at [d]: the
    elements before [d] stay where they are, those after [d] move one place
    to the left, the list is one shorter; [deletingIdx] is back at the
    sentinel and no editor is open. *)
Theorem confirmedDelete_removes_the_marked_metric (s : St) :
  0 <= deletingIdx s < metricsLength s ->
  let d := deletingIdx s in
  let s' := confirmedDelete s in
  metrics (playbook s') =
    firstn (Z.to_nat d) (metrics (playbook s)) ++
    skipn (S (Z.to_nat d)) (metrics (playbook s)) /\
  (forall k, k < d ->
     JsArray.get (metrics (playbook s')) k =
     JsArray.get (metrics (playbook s)) k) /\
  (forall k, d <= k ->
     JsArray.get (metrics (playbook s')) k =
     JsArray.get (metrics (playbook s)) (k + 1)) /\
  metricsLength s' = metricsLength s - 1 /\
  rest (playbook s') = rest (playbook s) /\
  deletingIdx s' = noDeletingIdx /\
  curEditingMetric s' = None /\
  changesMade s' = true.
Proof.
  intros Hd. cbv zeta. unfold metricsLength in *.
  unfold confirmedDelete. cbn.
  split; [apply splice_remove_inside; exact Hd |].
  split.
  { intros k Hk. rewrite get_splice_remove by exact Hd.
    replace (k <? deletingIdx s) with true by (symmetry; apply Z.ltb_lt; lia).
    reflexivity. }
  split.
  { intros k Hk. rewrite get_splice_remove by exact Hd.
    replace (k <? deletingIdx s) with false by (symmetry; apply Z.ltb_ge; lia).
    reflexivity. }
  split.
  { pose proof (length_splice_remove (metrics (playbook s)) Hd) as Hlen. lia. }
  repeat split.
Qed.

(** C7.  With the editor open at index [i] and a pending delete task for
    another index [j], a failed save drops the pending task and changes
    nothing else: the editor stays open at [i] with its draft, the prompt
    stays closed, the playbook is as before.  The task is not retried: a
    later successful save closes the editor without opening the prompt. *)
Theorem saveFailed_drops_pending_delete
    (s : St) (cur : EditingMetric.t) (j : Z) :
  curEditingMetric s = Some cur ->
  editorOpenAt (EditingMetric.index cur) s ->
  pendingAt delete j s ->
  EditingMetric.index cur <> j ->
  deletingIdx s = noDeletingIdx ->
  let s' := saveFailed s in
  nextTask s' = None /\
  curEditingMetric s' = Some cur /\
  editorOpenAt (EditingMetric.index cur) s' /\
  deletingIdx s' = noDeletingIdx /\
  confirmModalShown s' = false /\
  playbook s' = playbook s /\
  (forall target,
     let s'' := saveMetric newMetric timing target s' in
     deletingIdx s'' = noDeletingIdx /\
     confirmModalShown s'' = false /\
     curEditingMetric s'' = None /\
     nextTask s'' = None).
Proof.
  intros Hcur Hopen _ _ Hdel s'. subst s'. unfold saveFailed.
  split; [reflexivity |].
  split; [exact Hcur |].
  split; [exact Hopen |].
  split; [exact Hdel |].
  split; [unfold confirmModalShown; cbn; rewrite Hdel; reflexivity |].
  split; [reflexivity |].
  intros target. cbv zeta.
  unfold saveMetric, commitDraft, confirmModalShown. cbn. rewrite Hcur. cbn.
  rewrite Hdel. repeat split.
Qed.

(** C8.  [requestDeleteMetric index] opens the prompt for [index] at once,
    leaving the pending task and the save signal alone, when no editor is
    open or the open editor is at [index]; otherwise it records a pending
    delete task for [index], flips the save signal and leaves
    [deletingIdx] as it was.  The save signal is left alone exactly in the
    first case.  Playbook, editor and change flag are never touched. *)
Theorem requestDeleteMetric_immediate_iff (index : Z) (s : St) :
  let immediate :=
    curEditingMetric s = None \/
    exists cur, curEditingMetric s = Some cur /\ EditingMetric.index cur = index in
  let s' := requestDeleteMetric index s in
  (immediate ->
     deletingIdx s' = index /\
     nextTask s' = nextTask s /\
     saveMetricToggle s' = saveMetricToggle s) /\
  (~ immediate ->
     nextTask s' = Some (Task.mk delete None (Some index)) /\
     saveMetricToggle s' = negb (saveMetricToggle s) /\
     deletingIdx s' = deletingIdx s) /\
  (saveMetricToggle s' = saveMetricToggle s <-> immediate) /\
  playbook s' = playbook s /\
  curEditingMetric s' = curEditingMetric s /\
  changesMade s' = changesMade s.
Proof.
  intros immediate s'.
  assert (Hdec : deleteIsImmediate index s = true <-> immediate).
  { unfold deleteIsImmediate, immediate.
    destruct (curEditingMetric s) as [cur |].
    - rewrite Z.eqb_eq. split.
      + intros Heq. right. exists cur. split; [reflexivity | exact Heq].
      + intros [Hnone | [cur' [Hsome Heq]]]; [discriminate |].
        injection Hsome as Hsome. subst cur'. exact Heq.
    - split; [intros _; left; reflexivity | reflexivity]. }
  subst s'. unfold requestDeleteMetric.
  destruct (deleteIsImmediate index s) eqn:Himm; cbn.
  - assert (Hi : immediate) by (apply Hdec; reflexivity).
    split; [intros _; repeat split |].
    split; [intros Hn; contradiction |].
    split; [split; [intros _; exact Hi | reflexivity] |].
    repeat split.
  - assert (Hn : ~ immediate) by (intros Hi; apply Hdec in Hi; discriminate).
    split; [intros Hi; contradiction |].
    split; [intros _; repeat split |].
    split; [| repeat split].
    split; [| intros Hi; contradiction].
    intros Heq. destruct (saveMetricToggle s); discriminate.
Qed.

(** C9.  With the editor open at index [i] and a pending edit task for the
    same index [i], [saveMetric target] reopens the editor at [i] with the
    entry the list had at [i] before the commit, while the list after the
    commit holds the given target at [i]: the reopened draft carries the
    target from before the save, and it differs from the committed entry
    whenever that old target is not the one just committed. *)
Theorem saveMetric_pending_edit_same_row_reopens_snapshot
    (target : Z) (s : St) (cur : EditingMetric.t) :
  curEditingMetric s = Some cur ->
  editorOpenAt (EditingMetric.index cur) s ->
  pendingAt edit (EditingMetric.index cur) s ->
  let i := EditingMetric.index cur in
  let s' := saveMetric newMetric timing target s in
  let reopened := JsArray.get (metrics (playbook s)) i in
  curEditingMetric s' = Some (EditingMetric.mk i reopened) /\
  Metric.targetOf reopened =
    Metric.targetOf (JsArray.get (metrics (playbook s)) i) /\
  Metric.targetOf (JsArray.get (metrics (playbook s')) i) = Some target /\
  (Metric.targetOf reopened <> Some target ->
   reopened <> JsArray.get (metrics (playbook s')) i) /\
  nextTask s' = None.
Proof.
  intros Hcur Hopen [t [Htask [Hty Hidx]]]. cbv zeta.
  pose proof Hopen as Hinv. apply editorOpenAt_inv in Hinv.
  destruct Hinv as [cur' [_ [_ Hrange]]].
  unfold metricsLength in Hrange.
  assert (Hpb := playbook_saveMetric_editing target s Hcur).
  assert (Hpost : Metric.targetOf
            (JsArray.get (metrics (playbook (saveMetric newMetric timing target s)))
               (EditingMetric.index cur)) = Some target).
  { rewrite Hpb. cbn [metrics].
    rewrite get_splice_replace_same by exact Hrange. reflexivity. }
  split.
  { unfold saveMetric, commitDraft. rewrite Hcur, Htask, Hty.
    unfold indexOrDefault. rewrite Hidx. reflexivity. }
  split; [reflexivity |].
  split; [exact Hpost |].
  split; [| apply nextTask_saveMetric].
  intros Hne Heq. apply Hne. rewrite Heq. exact Hpost.
Qed.

(** C10.  [requestAddMetric T] with no editor open leaves the playbook, and
    so its committed metrics list, untouched: the new draft lives only in
    the editing state, at the index equal to the length of the list, where
    the render shows it after the committed metrics.  The change flag is
    raised at once. *)
Theorem requestAddMetric_idle_raises_flag_without_commit
    (T : MetricType) (s : St) :
  curEditingMetric s = None ->
  let s' := requestAddMetric newMetric T s in
  playbook s' = playbook s /\
  curEditingMetric s' =
    Some (EditingMetric.mk (metricsLength s) (Some (newMetric T))) /\
  displayedMetrics s' =
    map Some (metrics (playbook s)) ++ [Some (newMetric T)] /\
  changesMade s' = true /\
  nextTask s' = nextTask s /\
  saveMetricToggle s' = saveMetricToggle s /\
  deletingIdx s' = deletingIdx s.
Proof.
  intros Hcur. cbv zeta. unfold requestAddMetric. rewrite Hcur.
  unfold addMetric. cbn.
  repeat split.
  unfold displayedMetrics. cbn. unfold metricsLength.
  rewrite <- (length_map Some (metrics (playbook s))).
  apply splice_at_length_appends.
Qed.

(** C6, as the code has it.  The "Add Metric" control is disabled exactly
    when the [disabled] prop is set or the displayed list (the committed
    list with the draft spliced in) has four or more entries.  With four or
    more entries it is always disabled; with fewer it is disabled exactly
    when the prop says so.  The tooltip about the ceiling shows exactly
    with four or more entries. *)
Theorem addMetricDisabled_iff_prop_or_four (s : St) :
  (addMetricDisabled s = true <->
   disabled s = true \/ (4 <= length (displayedMetrics s))%nat) /\
  ((4 <= length (displayedMetrics s))%nat -> addMetricDisabled s = true) /\
  ((length (displayedMetrics s) < 4)%nat -> addMetricDisabled s = disabled s) /\
  (maxMetricsTooltipShown s = true <->
   (4 <= length (displayedMetrics s))%nat).
Proof.
  unfold addMetricDisabled, maxMetricsTooltipShown.
  destruct (4 <=? length (displayedMetrics s))%nat eqn:Hfour.
  - apply Nat.leb_le in Hfour.
    rewrite orb_true_r.
    split; [split; [intros _; right; exact Hfour | reflexivity] |].
    split; [reflexivity |].
    split; [intros Hlt; lia |].
    split; [intros _; exact Hfour | reflexivity].
  - apply Nat.leb_gt in Hfour.
    rewrite orb_false_r.
    split; [split; [intros Hd; left; exact Hd | intros [Hd | Hge]; [exact Hd | lia]] |].
    split; [intros Hge; lia |].
    split; [reflexivity |].
    split; [discriminate | intros Hge; lia].
Qed.

(** *** The handlers keep the editor row rendered *)

Lemma requestEditMetric_idle_opens (idx : Z) (s : St) (m : Metric.t) :
  curEditingMetric s = None ->
  JsArray.get (metrics (playbook s)) idx = Some m ->
  curEditingMetric (requestEditMetric idx s) =
    Some (EditingMetric.mk idx (Some m)) /\
  editorOpenAt idx (requestEditMetric idx s).
Proof.
  intros Hcur Hget.
  assert (Hed : curEditingMetric (requestEditMetric idx s) =
                Some (EditingMetric.mk idx (Some m))).
  { unfold requestEditMetric. rewrite Hcur, Hget. reflexivity. }
  split; [exact Hed |].
  apply (editorOpenAt_intro _ Hed). cbn.
  unfold JsArray.get in Hget.
  destruct (idx <? 0) eqn:Hneg; [discriminate |].
  apply Z.ltb_ge in Hneg.
  assert (Hlt : (Z.to_nat idx < length (metrics (playbook s)))%nat).
  { apply nth_error_Some. rewrite Hget. discriminate. }
  unfold metricsLength, requestEditMetric. rewrite Hcur. cbn. lia.
Qed.

Lemma rows_MetricView_inv (j : Z) (s : St) :
  In (MetricView j) (rows s) ->
  0 <= j < Z.of_nat (length (displayedMetrics s)) /\ rowIsEditor j s = false.
Proof.
  unfold rows. intros Hin.
  apply in_map_iff in Hin. destruct Hin as [k [Hrow Hk]].
  apply in_seq in Hk. unfold renderRow in Hrow.
  destruct (rowIsEditor (Z.of_nat k) s) eqn:Hed; [discriminate |].
  injection Hrow as Hj. subst j. split; [lia | exact Hed].
Qed.

(** The edit button of a read-only row queues an index at which the
    editor row is rendered again after the save. *)
Lemma saveMetric_pending_edit_keeps_editor_rendered
    (target : Z) (s : St) (cur : EditingMetric.t) (j : Z) :
  curEditingMetric s = Some cur ->
  editorOpenAt (EditingMetric.index cur) s ->
  In (MetricView j) (rows s) ->
  pendingAt edit j s ->
  editorOpenAt j (saveMetric newMetric timing target s).
Proof.
  intros Hcur Hopen Hview [t [Htask [Hty Hidx]]].
  pose proof Hopen as Hinv. apply editorOpenAt_inv in Hinv.
  destruct Hinv as [cur' [_ [_ Hrange]]].
  apply rows_MetricView_inv in Hview. destruct Hview as [Hj Hnot].
  unfold rowIsEditor in Hnot. rewrite Hcur in Hnot.
  apply Z.eqb_neq in Hnot.
  assert (Hpos : 0 <= EditingMetric.index cur) by lia.
  pose proof (length_displayedMetrics_editing s Hcur Hpos) as Hlen.
  assert (Hjlen : j < metricsLength s).
  { destruct (EditingMetric.index cur <? metricsLength s) eqn:Hlt.
    - lia.
    - apply Z.ltb_ge in Hlt. lia. }
  assert (Hed : curEditingMetric (saveMetric newMetric timing target s) =
                Some (EditingMetric.mk j
                        (JsArray.get (metrics (playbook s)) j))).
  { unfold saveMetric, commitDraft. rewrite Hcur, Htask, Hty.
    unfold indexOrDefault. rewrite Hidx. reflexivity. }
  apply (editorOpenAt_intro _ Hed). cbn [EditingMetric.index].
  unfold metricsLength in *.
  rewrite (playbook_saveMetric_editing target s Hcur). cbn [metrics].
  rewrite length_splice. rewrite actualStart_inside by exact Hrange.
  cbn [length]. lia.
Qed.

(** So does the menu entry: the new draft is rendered as a row. *)
Lemma saveMetric_pending_add_keeps_editor_rendered
    (target : Z) (s : St) (cur : EditingMetric.t) (T : MetricType) :
  curEditingMetric s = Some cur ->
  pendingAdd T s ->
  exists idx,
    curEditingMetric (saveMetric newMetric timing target s) =
      Some (EditingMetric.mk idx (Some (newMetric T))) /\
    editorOpenAt idx (saveMetric newMetric timing target s).
Proof.
  intros Hcur Hpend.
  destruct (saveMetric_pending_add_opens_at_length target Hcur Hpend)
    as [Hed _].
  eexists. split; [exact Hed |].
  apply (editorOpenAt_intro _ Hed). cbn [EditingMetric.index].
  unfold metricsLength.
  rewrite (playbook_saveMetric_editing target s Hcur). cbn [metrics].
  pose proof (JsArrayFacts.length_splice (EditingMetric.index cur) 1
                [Metric.withTarget (EditingMetric.metric cur) target]
                (metrics (playbook s))) as Hlen.
  pose proof (JsArrayFacts.actualStart_le (length (metrics (playbook s)))
                (EditingMetric.index cur)) as Hle.
  cbn [length] in Hlen.
  destruct timing; lia.
Qed.

(** The delete branch of [saveMetric] does not touch the editor. *)
Lemma saveMetric_pending_delete_keeps_editor
    (target : Z) (s : St) (cur : EditingMetric.t) (j : Z) :
  curEditingMetric s = Some cur ->
  pendingAt delete j s ->
  curEditingMetric (saveMetric newMetric timing target s) = Some cur /\
  deletingIdx (saveMetric newMetric timing target s) = j.
Proof.
  intros Hcur [t [Htask [Hty Hidx]]].
  unfold saveMetric, commitDraft. rewrite Hcur, Htask, Hty.
  unfold indexOrDefault. rewrite Hidx. cbn. split; [exact Hcur | reflexivity].
Qed.

End Properties.

(** ** The properties on concrete runs *)

Lemma saveMetric_replaces_only_the_draft_witness :
  curEditingMetric Sample.editing1 =
    Some (EditingMetric.mk 1 (Some Sample.metricB)) /\
  editorOpenAt 1 Sample.editing1 /\
  JsArray.get
    (metrics (playbook (saveMetric Sample.newMetric atCall 5 Sample.editing1)))
    1 = Some Scenario.metricB5 /\
  JsArray.get
    (metrics (playbook (saveMetric Sample.newMetric queued 5 Sample.editing1)))
    1 = Some Scenario.metricB5 /\
  JsArray.get
    (metrics (playbook (saveMetric Sample.newMetric atCall 5 Sample.editing1)))
    2 = Some Sample.metricC.
Proof.
  assert (Hcur : curEditingMetric Sample.editing1 =
                 Some (EditingMetric.mk 1 (Some Sample.metricB)))
    by reflexivity.
  assert (Hopen : editorOpenAt 1 Sample.editing1) by (vm_compute; tauto).
  split; [exact Hcur |]. split; [exact Hopen |].
  destruct (@saveMetric_replaces_only_the_draft _ Sample.newMetric atCall 5
              Sample.editing1 _ Hcur Hopen) as [Hat [_ [_ [Hother _]]]].
  destruct (@saveMetric_replaces_only_the_draft _ Sample.newMetric queued 5
              Sample.editing1 _ Hcur Hopen) as [Hat' _].
  split; [exact Hat |]. split; [exact Hat' |].
  apply (Hother 2). discriminate.
Defined.

Lemma saveMetric_pending_edit_opens_other_row_witness :
  curEditingMetric Sample.editing1_edit0 =
    Some (EditingMetric.mk 1 (Some Sample.metricB)) /\
  editorOpenAt 1 Sample.editing1_edit0 /\
  pendingAt edit 0 Sample.editing1_edit0 /\
  1 <> 0 /\
  curEditingMetric (saveMetric Sample.newMetric atCall 5 Sample.editing1_edit0) =
    Some (EditingMetric.mk 0
      (JsArray.get
         (metrics
            (playbook (saveMetric Sample.newMetric atCall 5 Sample.editing1_edit0)))
         0)).
Proof.
  assert (Hcur : curEditingMetric Sample.editing1_edit0 =
                 Some (EditingMetric.mk 1 (Some Sample.metricB)))
    by reflexivity.
  assert (Hopen : editorOpenAt 1 Sample.editing1_edit0)
    by (vm_compute; tauto).
  assert (Hpend : pendingAt edit 0 Sample.editing1_edit0)
    by (exists (Task.mk edit None (Some 0)); repeat split).
  assert (Hne : 1 <> 0) by discriminate.
  split; [exact Hcur |]. split; [exact Hopen |].
  split; [exact Hpend |]. split; [exact Hne |].
  exact (proj1 (proj2
    (@saveMetric_pending_edit_opens_other_row _ Sample.newMetric atCall 5
       Sample.editing1_edit0 _ 0 Hcur Hopen Hpend Hne))).
Defined.

Lemma confirmedDelete_removes_the_marked_metric_witness :
  0 <= deletingIdx Sample.deleting1 < metricsLength Sample.deleting1 /\
  metrics (playbook (confirmedDelete Sample.deleting1)) =
    [Sample.metricA; Sample.metricC] /\
  curEditingMetric (confirmedDelete Sample.deleting1) = None.
Proof.
  assert (Hd : 0 <= deletingIdx Sample.deleting1
               < metricsLength Sample.deleting1)
    by (vm_compute; split; [discriminate | reflexivity]).
  split; [exact Hd |].
  destruct (@confirmedDelete_removes_the_marked_metric _ Sample.deleting1 Hd)
    as [Hlist [_ [_ [_ [_ [_ [Hed _]]]]]]].
  split; [exact Hlist | exact Hed].
Defined.

Lemma saveFailed_drops_pending_delete_witness :
  curEditingMetric Sample.editing1_delete2 =
    Some (EditingMetric.mk 1 (Some Sample.metricB)) /\
  editorOpenAt 1 Sample.editing1_delete2 /\
  pendingAt delete 2 Sample.editing1_delete2 /\
  1 <> 2 /\
  deletingIdx Sample.editing1_delete2 = noDeletingIdx /\
  nextTask (saveFailed Sample.editing1_delete2) = None /\
  curEditingMetric (saveFailed Sample.editing1_delete2) =
    Some (EditingMetric.mk 1 (Some Sample.metricB)).
Proof.
  assert (Hcur : curEditingMetric Sample.editing1_delete2 =
                 Some (EditingMetric.mk 1 (Some Sample.metricB)))
    by reflexivity.
  assert (Hopen : editorOpenAt 1 Sample.editing1_delete2)
    by (vm_compute; tauto).
  assert (Hpend : pendingAt delete 2 Sample.editing1_delete2)
    by (exists (Task.mk delete None (Some 2)); repeat split).
  assert (Hne : 1 <> 2) by discriminate.
  assert (Hdel : deletingIdx Sample.editing1_delete2 = noDeletingIdx)
    by reflexivity.
  split; [exact Hcur |]. split; [exact Hopen |]. split; [exact Hpend |].
  split; [exact Hne |]. split; [exact Hdel |].
  destruct (@saveFailed_drops_pending_delete _ Sample.newMetric atCall
              Sample.editing1_delete2 _ 2 Hcur Hopen Hpend Hne Hdel)
    as [Htask [Hed _]].
  split; [exact Htask | exact Hed].
Defined.

Lemma requestDeleteMetric_immediate_iff_witness :
  deletingIdx (requestDeleteMetric 1 Sample.editing1) = 1 /\
  nextTask (requestDeleteMetric 1 Sample.editing1) = None /\
  nextTask (requestDeleteMetric 2 Sample.editing1) =
    Some (Task.mk delete None (Some 2)) /\
  deletingIdx (requestDeleteMetric 2 Sample.editing1) = noDeletingIdx.
Proof.
  destruct (@requestDeleteMetric_immediate_iff _ 1 Sample.editing1)
    as [Hnow _].
  destruct (@requestDeleteMetric_immediate_iff _ 2 Sample.editing1)
    as [_ [Hlater _]].
  destruct Hnow as [Hidx [Htask _]].
  { right. exists (EditingMetric.mk 1 (Some Sample.metricB)).
    split; reflexivity. }
  destruct Hlater as [Htask2 [_ Hidx2]].
  { intros [Hnone | [cur [Hsome Heq]]]; [discriminate |].
    injection Hsome as Hsome. subst cur. discriminate. }
  split; [exact Hidx |]. split; [exact Htask |].
  split; [exact Htask2 | exact Hidx2].
Defined.

Lemma saveMetric_pending_edit_same_row_reopens_snapshot_witness :
  curEditingMetric Sample.editing1_edit1 =
    Some (EditingMetric.mk 1 (Some Sample.metricB)) /\
  editorOpenAt 1 Sample.editing1_edit1 /\
  pendingAt edit 1 Sample.editing1_edit1 /\
  curEditingMetric (saveMetric Sample.newMetric atCall 5 Sample.editing1_edit1) =
    Some (EditingMetric.mk 1 (Some Sample.metricB)) /\
  Metric.targetOf
    (JsArray.get
       (metrics (playbook (saveMetric Sample.newMetric atCall 5 Sample.editing1_edit1)))
       1) = Some 5.
Proof.
  assert (Hcur : curEditingMetric Sample.editing1_edit1 =
                 Some (EditingMetric.mk 1 (Some Sample.metricB)))
    by reflexivity.
  assert (Hopen : editorOpenAt 1 Sample.editing1_edit1)
    by (vm_compute; tauto).
  assert (Hpend : pendingAt edit 1 Sample.editing1_edit1)
    by (exists (Task.mk edit None (Some 1)); repeat split).
  split; [exact Hcur |]. split; [exact Hopen |]. split; [exact Hpend |].
  destruct (@saveMetric_pending_edit_same_row_reopens_snapshot _
              Sample.newMetric atCall 5 Sample.editing1_edit1 _ Hcur Hopen Hpend)
    as [Hed [_ [Hpost _]]].
  split; [exact Hed | exact Hpost].
Defined.

Lemma requestAddMetric_idle_raises_flag_without_commit_witness :
  curEditingMetric Sample.idle = None /\
  changesMade Sample.idle = false /\
  playbook (requestAddMetric Sample.newMetric Currency Sample.idle) =
    playbook Sample.idle /\
  curEditingMetric (requestAddMetric Sample.newMetric Currency Sample.idle) =
    Some (EditingMetric.mk 3 (Some (Sample.newMetric Currency))) /\
  changesMade (requestAddMetric Sample.newMetric Currency Sample.idle) = true.
Proof.
  assert (Hcur : curEditingMetric Sample.idle = None) by reflexivity.
  split; [exact Hcur |]. split; [reflexivity |].
  destruct (@requestAddMetric_idle_raises_flag_without_commit _
              Sample.newMetric Currency Sample.idle Hcur)
    as [Hpb [Hed [_ [Hflag _]]]].
  split; [exact Hpb |]. split; [exact Hed | exact Hflag].
Defined.

(** C6 read without the [disabled] prop fails on a read-only playbook:
    three metrics are displayed, yet the control is disabled. *)
Lemma addMetricDisabled_with_three_metrics :
  length (displayedMetrics Sample.idleDisabled) = 3%nat /\
  addMetricDisabled Sample.idleDisabled = true /\
  ~ (addMetricDisabled Sample.idleDisabled = true <->
     (4 <= length (displayedMetrics Sample.idleDisabled))%nat).
Proof.
  split; [reflexivity |]. split; [reflexivity |].
  intros [Hdis _].
  assert (Hfour : (4 <= 3)%nat) by (apply Hdis; reflexivity).
  lia.
Qed.

Lemma addMetricDisabled_iff_prop_or_four_witness :
  (length (displayedMetrics Sample.idle) < 4)%nat /\
  addMetricDisabled Sample.idle = false /\
  addMetricDisabled Sample.idleDisabled = true.
Proof.
  assert (Hlt : (length (displayedMetrics Sample.idle) < 4)%nat)
    by (vm_compute; lia).
  split; [exact Hlt |].
  destruct (@addMetricDisabled_iff_prop_or_four _ Sample.idle)
    as [_ [_ [Hfew _]]].
  destruct (@addMetricDisabled_iff_prop_or_four _ Sample.idleDisabled)
    as [[_ Hdis] _].
  split; [exact (Hfew Hlt) |].
  apply Hdis. left. reflexivity.
Defined.

(** C1.  The spec wants the editor closed whenever the prompt is open for
    another index.  On a run: metrics [A, B, C], the editor open on row 1,
    delete clicked on row 2, which queued the delete.  The save succeeds
    with target 5, and the prompt opens for index 2 while the editor is
    still open at index 1 with its old draft: the delete branch of
    [saveMetric] has no [setCurEditingMetric(null)]. *)
Theorem saveMetric_pending_delete_leaves_editor_open :
  let s := Sample.editing1_delete2 in
  let s' := saveMetric Sample.newMetric atCall 5 s in
  curEditingMetric s = Some (EditingMetric.mk 1 (Some Sample.metricB)) /\
  nextTask s = Some (Task.mk delete None (Some 2)) /\
  metrics (playbook s') =
    [Sample.metricA; Metric.withTarget (Some Sample.metricB) 5; Sample.metricC] /\
  deletingIdx s' = 2 /\
  confirmModalShown s' = true /\
  curEditingMetric s' = Some (EditingMetric.mk 1 (Some Sample.metricB)) /\
  rows s' = [MetricView 0; MetricEdit 1; MetricView 2].
Proof. cbv zeta. repeat split. Qed.


(** ** Further properties *)

Module JsArrayMoreFacts.
Import JsArray.

(** Removing at or beyond the end removes nothing. *)
Lemma splice_remove_outside {A : Type} (d : Z) (l : list A) :
  Z.of_nat (length l) <= d ->
  splice d 1 [] l = l.
Proof.
  intros Hd. unfold splice, actualStart. cbv zeta.
  destruct (d <? 0) eqn:Hneg; [apply Z.ltb_lt in Hneg; lia |].
  replace (Z.to_nat (Z.min d (Z.of_nat (length l)))) with (length l) by lia.
  rewrite Nat.sub_diag, Nat.min_0_r, Nat.add_0_r.
  rewrite firstn_all, skipn_all. cbn. apply app_nil_r.
Qed.

(** A start of [-1] counts from the end: the last element goes. *)
Lemma splice_remove_minus_one {A : Type} (l : list A) :
  splice (-1) 1 [] l = removelast l.
Proof.
  unfold splice, actualStart. cbv zeta.
  change (-1 <? 0) with true. cbv iota.
  destruct l as [| x l'] eqn:Hl; [reflexivity |].
  rewrite <- Hl.
  assert (Hlen : length l = S (length l')) by (rewrite Hl; reflexivity).
  replace (Z.to_nat (Z.max (Z.of_nat (length l) + -1) 0))
    with (pred (length l)) by lia.
  replace (Nat.min 1 (length l - pred (length l))) with 1%nat by lia.
  replace (pred (length l) + 1)%nat with (length l) by lia.
  rewrite skipn_all. cbn [app]. rewrite app_nil_r.
  symmetry. apply removelast_firstn_len.
Qed.

Lemma length_splice_replace_bounds {A : Type} (i : Z) (x : A) (l : list A) :
  (length l <= length (splice i 1 [x] l) <= S (length l))%nat.
Proof.
  rewrite JsArrayFacts.length_splice. cbn [length].
  pose proof (JsArrayFacts.actualStart_le (length l) i). lia.
Qed.

Lemma length_splice_remove_bounds {A : Type} (d : Z) (l : list A) :
  (length (splice d 1 [] l) <= length l <= S (length (splice d 1 [] l)))%nat.
Proof.
  rewrite JsArrayFacts.length_splice. cbn [length].
  pose proof (JsArrayFacts.actualStart_le (length l) d). lia.
Qed.

(** A [flatMap] that drops the element at one index and keeps one value
    of each other element. *)
Lemma flatMapFrom_skip_index {A B : Type} (g : A -> B) (idx : Z)
    (l : list A) (from : nat) :
  flatMapFrom (fun i m => if Z.of_nat i =? idx then [] else [g m]) from l =
    if idx <? Z.of_nat from then map g l
    else map g (firstn (Z.to_nat idx - from) l ++
                skipn (S (Z.to_nat idx - from)) l).
Proof.
  revert from. induction l as [| x l' IH]; intros from.
  - cbn. rewrite firstn_nil. destruct (idx <? Z.of_nat from); reflexivity.
  - cbn [flatMapFrom]. rewrite IH.
    destruct (Z.of_nat from =? idx) eqn:Hhere.
    + apply Z.eqb_eq in Hhere.
      replace (idx <? Z.of_nat (S from)) with true
        by (symmetry; apply Z.ltb_lt; lia).
      replace (idx <? Z.of_nat from) with false
        by (symmetry; apply Z.ltb_ge; lia).
      replace (Z.to_nat idx - from)%nat with 0%nat by lia.
      reflexivity.
    + apply Z.eqb_neq in Hhere.
      destruct (idx <? Z.of_nat from) eqn:Hbefore.
      * apply Z.ltb_lt in Hbefore.
        replace (idx <? Z.of_nat (S from)) with true
          by (symmetry; apply Z.ltb_lt; lia).
        reflexivity.
      * apply Z.ltb_ge in Hbefore.
        replace (idx <? Z.of_nat (S from)) with false
          by (symmetry; apply Z.ltb_ge; lia).
        replace (Z.to_nat idx - from)%nat
          with (S (Z.to_nat idx - S from)) by lia.
        reflexivity.
Qed.

Lemma get_map {A B : Type} (f : A -> B) (l : list A) (k : Z) :
  get (map f l) k = option_map f (get l k).
Proof.
  unfold get. destruct (k <? 0); [reflexivity |]. apply nth_error_map.
Qed.

(** Putting back the element that is already there changes nothing. *)
Lemma splice_replace_same_element {A : Type} (i : Z) (x : A) (l : list A) :
  get l i = Some x ->
  splice i 1 [x] l = l.
Proof.
  unfold get. intros Hget.
  destruct (i <? 0) eqn:Hneg; [discriminate |]. apply Z.ltb_ge in Hneg.
  assert (Hlt : (Z.to_nat i < length l)%nat).
  { apply nth_error_Some. rewrite Hget. discriminate. }
  rewrite JsArrayFacts.splice_replace_inside by lia.
  apply nth_error_split in Hget.
  destruct Hget as [l1 [l2 [Hl Hlen]]].
  rewrite Hl at 1 2. rewrite <- Hlen.
  rewrite firstn_app, firstn_all, Nat.sub_diag. cbn [firstn].
  rewrite app_nil_r.
  change (S (length l1)) with (1 + length l1)%nat.
  rewrite <- skipn_skipn.
  rewrite skipn_app, skipn_all, Nat.sub_diag. cbn [skipn app].
  symmetry. exact Hl.
Qed.

End JsArrayMoreFacts.

Section MoreProperties.

Variable R : Type.
Variable newMetric : MetricType -> Metric.t.
Variable timing : UpdaterTiming.

Abbreviation St := (State R).

Import JsArrayFacts JsArrayMoreFacts.

(** X1.  The prompt mentions the historical data exactly when
    [deletingIdx] points at a committed metric whose [id] is not the empty
    string; for the sentinel, for an uncommitted draft past the end of the
    list and for a metric not yet persisted it shows the base text. *)
Theorem deleteMessage_existing_iff (s : St) :
  deleteMessage s = deleteExistingMessage <->
  exists m,
    JsArray.get (metrics (playbook s)) (deletingIdx s) = Some m /\
    Metric.id m <> Some String.EmptyString.
Proof.
  unfold deleteMessage, metricsLength, JsArray.get.
  destruct (0 <=? deletingIdx s) eqn:Hpos; cbn [andb].
  - apply Z.leb_le in Hpos.
    replace (deletingIdx s <? 0) with false
      by (symmetry; apply Z.ltb_ge; lia).
    destruct (deletingIdx s <? Z.of_nat (length (metrics (playbook s))))
      eqn:Hin.
    + destruct (nth_error (metrics (playbook s)) (Z.to_nat (deletingIdx s)))
        as [m |] eqn:Hget.
      * unfold idIsNotEmpty.
        destruct (Metric.id m) as [[| c r] |] eqn:Hid.
        -- split; [discriminate |].
           intros [m' [Hm' Hne]]. injection Hm' as Hm'. subst m'.
           contradiction.
        -- split; [| reflexivity].
           intros _. exists m. split; [reflexivity | congruence].
        -- split; [| reflexivity].
           intros _. exists m. split; [reflexivity | congruence].
      * split; [discriminate | intros [m [Hm _]]; discriminate].
    + apply Z.ltb_ge in Hin.
      split; [discriminate |].
      intros [m [Hm _]].
      assert (Hlt : (Z.to_nat (deletingIdx s)
                     < length (metrics (playbook s)))%nat).
      { apply nth_error_Some. rewrite Hm. discriminate. }
      lia.
  - apply Z.leb_gt in Hpos.
    replace (deletingIdx s <? 0) with true
      by (symmetry; apply Z.ltb_lt; lia).
    split; [discriminate | intros [m [Hm _]]; discriminate].
Qed.

(** X2.  The titles handed to the editor row at [idx] are the titles of
    all committed metrics but the one at [idx], in list order; the editor
    of a new draft, whose index is the length of the list, gets all of
    them. *)
Theorem otherTitles_skips_own_row (idx : Z) (s : St) :
  0 <= idx ->
  otherTitles idx s =
    map Metric.title
      (firstn (Z.to_nat idx) (metrics (playbook s)) ++
       skipn (S (Z.to_nat idx)) (metrics (playbook s))) /\
  (metricsLength s <= idx ->
   otherTitles idx s = map Metric.title (metrics (playbook s))) /\
  (idx < metricsLength s ->
   Z.of_nat (length (otherTitles idx s)) = metricsLength s - 1).
Proof.
  intros Hidx. unfold otherTitles, JsArray.flatMap, metricsLength.
  rewrite flatMapFrom_skip_index.
  replace (idx <? Z.of_nat 0) with false by (symmetry; apply Z.ltb_ge; lia).
  rewrite Nat.sub_0_r.
  split; [reflexivity |]. split.
  - intros Hout. rewrite firstn_all2, skipn_all2 by lia.
    rewrite app_nil_r. reflexivity.
  - intros Hin. rewrite length_map, length_app, length_firstn, length_skipn.
    lia.
Qed.

(** X3.  The render has one row per displayed metric and at most one of
    them is the editor row.  A row is the editor row exactly when its
    index is [curEditingMetric.index]: an editor row at position [k] means
    an open editor with index [k]; an open editor whose index is a position
    of the displayed list has the editor row there; every other row is a
    read-only row labelled with its own position; without an open editor
    there is no editor row. *)
Theorem rows_have_one_editor_at_most (s : St) :
  length (rows s) = length (displayedMetrics s) /\
  (forall k k' i i',
     nth_error (rows s) k = Some (MetricEdit i) ->
     nth_error (rows s) k' = Some (MetricEdit i') ->
     k = k' /\ i = i' /\ i = Z.of_nat k) /\
  (curEditingMetric s = None -> forall i, ~ In (MetricEdit i) (rows s)) /\
  (forall k i,
     nth_error (rows s) k = Some (MetricEdit i) ->
     exists cur,
       curEditingMetric s = Some cur /\
       EditingMetric.index cur = Z.of_nat k) /\
  (forall cur,
     curEditingMetric s = Some cur ->
     0 <= EditingMetric.index cur <= metricsLength s ->
     nth_error (rows s) (Z.to_nat (EditingMetric.index cur)) =
       Some (MetricEdit (EditingMetric.index cur))) /\
  (forall k,
     (k < length (displayedMetrics s))%nat ->
     (forall cur,
        curEditingMetric s = Some cur ->
        EditingMetric.index cur <> Z.of_nat k) ->
     nth_error (rows s) k = Some (MetricView (Z.of_nat k))).
Proof.
  assert (Hrow : forall k,
            (k < length (displayedMetrics s))%nat ->
            nth_error (rows s) k = Some (renderRow s k)).
  { intros k Hk. unfold rows. rewrite nth_error_map, nth_error_seq.
    replace (k <? length (displayedMetrics s))%nat with true
      by (symmetry; apply Nat.ltb_lt; exact Hk).
    reflexivity. }
  assert (Hlen : length (rows s) = length (displayedMetrics s))
    by (unfold rows; rewrite length_map, length_seq; reflexivity).
  assert (Hat : forall k i,
            nth_error (rows s) k = Some (MetricEdit i) ->
            i = Z.of_nat k /\
            exists cur,
              curEditingMetric s = Some cur /\
              EditingMetric.index cur = Z.of_nat k).
  { intros k i Hk.
    assert (Hlt : (k < length (rows s))%nat)
      by (apply nth_error_Some; rewrite Hk; discriminate).
    rewrite Hlen in Hlt. rewrite (Hrow k Hlt) in Hk.
    unfold renderRow, rowIsEditor in Hk.
    destruct (curEditingMetric s) as [cur |]; [| discriminate].
    destruct (Z.of_nat k =? EditingMetric.index cur) eqn:Heq;
      [| discriminate].
    apply Z.eqb_eq in Heq. injection Hk as Hk.
    split; [symmetry; exact Hk |].
    exists cur. split; [reflexivity | symmetry; exact Heq]. }
  split; [exact Hlen |].
  split.
  { intros k k' i i' Hk Hk'.
    destruct (Hat _ _ Hk) as [Hi [cur [Hcur Hidx]]].
    destruct (Hat _ _ Hk') as [Hi' [cur' [Hcur' Hidx']]].
    rewrite Hcur in Hcur'. injection Hcur' as Hcur'. subst cur'.
    assert (Hkk : k = k') by lia. subst k'.
    split; [reflexivity |]. split; [congruence | exact Hi]. }
  split.
  { intros Hnone i Hin. apply In_nth_error in Hin. destruct Hin as [k Hk].
    destruct (Hat _ _ Hk) as [_ [cur [Hcur _]]]. congruence. }
  split; [intros k i Hk; exact (proj2 (Hat _ _ Hk)) |].
  split.
  { intros cur Hcur Hrange.
    assert (Hpos : 0 <= EditingMetric.index cur) by lia.
    pose proof (length_displayedMetrics_editing s Hcur Hpos) as Hshown.
    assert (Hlt : (Z.to_nat (EditingMetric.index cur)
                   < length (displayedMetrics s))%nat).
    { destruct (EditingMetric.index cur <? metricsLength s) eqn:Hin.
      - apply Z.ltb_lt in Hin. lia.
      - lia. }
    rewrite (Hrow _ Hlt). unfold renderRow, rowIsEditor. rewrite Hcur.
    rewrite Z2Nat.id by exact Hpos. rewrite Z.eqb_refl. reflexivity. }
  intros k Hk Hother. rewrite (Hrow k Hk).
  unfold renderRow, rowIsEditor.
  destruct (curEditingMetric s) as [cur |]; [| reflexivity].
  replace (Z.of_nat k =? EditingMetric.index cur) with false;
    [reflexivity |].
  symmetry. apply Z.eqb_neq. intros Heq.
  apply (Hother cur eq_refl). symmetry. exact Heq.
Qed.

(** X4.  With the editor open at [i], the displayed list holds the draft
    at [i] and the committed metrics everywhere else, each at its own
    index. *)
Theorem displayedMetrics_shows_draft_in_place
    (s : St) (cur : EditingMetric.t) :
  curEditingMetric s = Some cur ->
  editorOpenAt (EditingMetric.index cur) s ->
  JsArray.get (displayedMetrics s) (EditingMetric.index cur) =
    Some (EditingMetric.metric cur) /\
  (forall k, k <> EditingMetric.index cur ->
     JsArray.get (displayedMetrics s) k =
     option_map Some (JsArray.get (metrics (playbook s)) k)).
Proof.
  intros Hcur Hopen.
  apply editorOpenAt_inv in Hopen. destruct Hopen as [cur' [_ [_ Hrange]]].
  unfold metricsLength in Hrange.
  unfold displayedMetrics. rewrite Hcur.
  split.
  - apply get_splice_replace_same. rewrite length_map. exact Hrange.
  - intros k Hk. rewrite get_splice_replace_other
      by (rewrite ?length_map; assumption).
    apply get_map.
Qed.

(** X5.  Adding from the idle state and saving appends exactly one metric,
    the new one with the saved target, and closes the editor. *)
Theorem add_then_save_appends (T : MetricType) (target : Z) (s : St) :
  curEditingMetric s = None ->
  nextTask s = None ->
  let s' := saveMetric newMetric timing target (requestAddMetric newMetric T s) in
  metrics (playbook s') =
    metrics (playbook s) ++
    [Metric.mk (Metric.id (newMetric T)) (Metric.title (newMetric T))
       (Metric.type (newMetric T)) (Some target)] /\
  rest (playbook s') = rest (playbook s) /\
  curEditingMetric s' = None /\
  nextTask s' = None /\
  changesMade s' = true /\
  deletingIdx s' = deletingIdx s.
Proof.
  intros Hcur Htask. cbv zeta.
  unfold requestAddMetric. rewrite Hcur.
  unfold saveMetric, commitDraft, addMetric. cbn. rewrite Htask. cbn.
  unfold metricsLength. rewrite splice_at_length_appends.
  repeat split.
Qed.

(** X6.  Opening a committed metric from the idle state and saving sets
    its target and nothing else: same length, every other entry as before,
    editor closed.  Saving the target the metric already had leaves the
    list as it was. *)
Theorem edit_then_save_updates_target
    (idx target : Z) (s : St) (m : Metric.t) :
  curEditingMetric s = None ->
  nextTask s = None ->
  JsArray.get (metrics (playbook s)) idx = Some m ->
  let s' := saveMetric newMetric timing target (requestEditMetric idx s) in
  JsArray.get (metrics (playbook s')) idx =
    Some (Metric.mk (Metric.id m) (Metric.title m) (Metric.type m)
            (Some target)) /\
  (forall k, k <> idx ->
     JsArray.get (metrics (playbook s')) k =
     JsArray.get (metrics (playbook s)) k) /\
  metricsLength s' = metricsLength s /\
  curEditingMetric s' = None /\
  (Metric.target m = Some target ->
   metrics (playbook s') = metrics (playbook s)).
Proof.
  intros Hcur Htask Hget. cbv zeta.
  assert (Hrange : 0 <= idx < Z.of_nat (length (metrics (playbook s)))).
  { unfold JsArray.get in Hget.
    destruct (idx <? 0) eqn:Hneg; [discriminate |]. apply Z.ltb_ge in Hneg.
    assert ((Z.to_nat idx < length (metrics (playbook s)))%nat)
      by (apply nth_error_Some; rewrite Hget; discriminate).
    lia. }
  unfold requestEditMetric. rewrite Hcur, Hget.
  unfold saveMetric, commitDraft, metricsLength. cbn. rewrite Htask. cbn.
  split; [apply get_splice_replace_same; lia |].
  split; [intros k Hk; apply get_splice_replace_other; [lia | exact Hk] |].
  split; [rewrite length_splice_replace by exact Hrange; reflexivity |].
  split; [reflexivity |].
  intros Hsame. apply splice_replace_same_element.
  rewrite Hget. destruct m as [mid mtitle mtype mtarget].
  cbn in Hsame |- *. rewrite Hsame. reflexivity.
Qed.

(** X7.  The editor's [setMetric] rewrites the draft and nothing else: the
    editor stays at its index, the playbook, the change flag, the pending
    task and the prompt are untouched; a save then commits the rewritten
    draft with the saved target. *)
Theorem setMetric_rewrites_only_the_draft
    (setState : option Metric.t -> Metric.t) (target : Z)
    (s : St) (cur : EditingMetric.t) :
  curEditingMetric s = Some cur ->
  editorOpenAt (EditingMetric.index cur) s ->
  let s1 := setMetric setState s in
  let draft := setState (EditingMetric.metric cur) in
  curEditingMetric s1 =
    Some (EditingMetric.mk (EditingMetric.index cur) (Some draft)) /\
  editorOpenAt (EditingMetric.index cur) s1 /\
  playbook s1 = playbook s /\
  changesMade s1 = changesMade s /\
  nextTask s1 = nextTask s /\
  deletingIdx s1 = deletingIdx s /\
  JsArray.get (metrics (playbook (saveMetric newMetric timing target s1)))
    (EditingMetric.index cur) =
    Some (Metric.mk (Metric.id draft) (Metric.title draft)
            (Metric.type draft) (Some target)).
Proof.
  intros Hcur Hopen. cbv zeta.
  pose proof Hopen as Hinv. apply editorOpenAt_inv in Hinv.
  destruct Hinv as [cur' [_ [_ Hrange]]].
  assert (Hed : curEditingMetric (setMetric setState s) =
                Some (EditingMetric.mk (EditingMetric.index cur)
                        (Some (setState (EditingMetric.metric cur))))).
  { unfold setMetric. rewrite Hcur. reflexivity. }
  assert (Hopen1 : editorOpenAt (EditingMetric.index cur)
                     (setMetric setState s)).
  { apply (editorOpenAt_intro _ Hed). exact Hrange. }
  split; [exact Hed |]. split; [exact Hopen1 |].
  split; [reflexivity |]. split; [reflexivity |].
  split; [reflexivity |]. split; [reflexivity |].
  rewrite (playbook_saveMetric_editing newMetric timing target _ Hed).
  cbn [metrics EditingMetric.index EditingMetric.metric].
  apply get_splice_replace_same. exact Hrange.
Qed.

(** X8.  A new draft is thrown away by the delete button of its own row:
    the prompt opens at once with the base text, and confirming leaves the
    playbook exactly as it was before the add, with no editor open.  The
    change flag stays raised all the same. *)
Theorem add_then_delete_discards_draft (T : MetricType) (s : St) :
  curEditingMetric s = None ->
  let s1 := requestAddMetric newMetric T s in
  let s2 := requestDeleteMetric (metricsLength s) s1 in
  let s3 := confirmedDelete s2 in
  editorOpenAt (metricsLength s) s1 /\
  confirmModalShown s2 = true /\
  deleteMessage s2 = deleteBaseMessage /\
  nextTask s2 = nextTask s /\
  saveMetricToggle s2 = saveMetricToggle s /\
  playbook s3 = playbook s /\
  curEditingMetric s3 = None /\
  deletingIdx s3 = noDeletingIdx /\
  changesMade s3 = true.
Proof.
  intros Hcur. cbv zeta.
  assert (Hs1 : requestAddMetric newMetric T s =
                addMetric newMetric T (metricsLength s) s).
  { unfold requestAddMetric. rewrite Hcur. reflexivity. }
  rewrite Hs1.
  assert (Hs2 : requestDeleteMetric (metricsLength s)
                  (addMetric newMetric T (metricsLength s) s) =
                setDeletingIdx (metricsLength s)
                  (addMetric newMetric T (metricsLength s) s)).
  { unfold requestDeleteMetric, deleteIsImmediate. cbn.
    rewrite Z.eqb_refl. reflexivity. }
  rewrite Hs2.
  split.
  { apply (@editorOpenAt_intro _ (addMetric newMetric T (metricsLength s) s)
             (EditingMetric.mk (metricsLength s) (Some (newMetric T)))).
    - reflexivity.
    - cbn. unfold metricsLength. cbn. lia. }
  split.
  { unfold confirmModalShown. cbn. apply Z.leb_le. unfold metricsLength. lia. }
  split.
  { unfold deleteMessage, metricsLength. cbn.
    rewrite Z.ltb_irrefl, andb_false_r. reflexivity. }
  split; [reflexivity |]. split; [reflexivity |].
  split.
  { unfold confirmedDelete. cbn.
    rewrite splice_remove_outside by (unfold metricsLength; lia).
    destruct (playbook s). reflexivity. }
  repeat split.
Qed.

(** X9.  Delete clicked on row [j] while row [i] is edited, the save
    succeeding and the prompt confirmed: the list loses exactly the metric
    that was at [j], and the edit is kept, at [i] when [i] is before [j]
    and one place to the left otherwise.  Editor closed, prompt closed, no
    task left. *)
Theorem save_then_confirm_pending_delete
    (target : Z) (s : St) (cur : EditingMetric.t) (j : Z) :
  curEditingMetric s = Some cur ->
  editorOpenAt (EditingMetric.index cur) s ->
  pendingAt delete j s ->
  EditingMetric.index cur <> j ->
  0 <= j < metricsLength s ->
  let i := EditingMetric.index cur in
  let committed :=
    match EditingMetric.metric cur with
    | Some d =>
        Metric.mk (Metric.id d) (Metric.title d) (Metric.type d) (Some target)
    | None => Metric.mk None None None (Some target)
    end in
  let s1 := saveMetric newMetric timing target s in
  let s2 := confirmedDelete s1 in
  metrics (playbook s2) =
    JsArray.splice j 1 []
      (JsArray.splice i 1 [committed] (metrics (playbook s))) /\
  metricsLength s2 = metricsLength s1 - 1 /\
  JsArray.get (metrics (playbook s2)) (if i <? j then i else i - 1) =
    Some committed /\
  (forall k, k < j -> k <> i ->
     JsArray.get (metrics (playbook s2)) k =
     JsArray.get (metrics (playbook s)) k) /\
  curEditingMetric s2 = None /\
  deletingIdx s2 = noDeletingIdx /\
  nextTask s2 = None.
Proof.
  intros Hcur Hopen Hpend Hij Hj. cbv zeta.
  rewrite withTarget_fields.
  pose proof Hopen as Hinv. apply editorOpenAt_inv in Hinv.
  destruct Hinv as [cur' [_ [_ Hrange]]].
  unfold metricsLength in Hrange, Hj.
  destruct (saveMetric_pending_delete_keeps_editor newMetric timing target Hcur Hpend)
    as [_ Hdel].
  assert (Hpb := playbook_saveMetric_editing newMetric timing target s Hcur).
  set (s1 := saveMetric newMetric timing target s) in *.
  set (l1 := JsArray.splice (EditingMetric.index cur) 1
               [Metric.withTarget (EditingMetric.metric cur) target]
               (metrics (playbook s))) in *.
  assert (Hl1 : metrics (playbook s1) = l1) by (rewrite Hpb; reflexivity).
  assert (Hlen1 : (length (metrics (playbook s)) <= length l1)%nat)
    by apply length_splice_replace_bounds.
  assert (Hj1 : 0 <= j < Z.of_nat (length l1)) by lia.
  assert (Hm2 : metrics (playbook (confirmedDelete s1)) =
                JsArray.splice j 1 [] l1).
  { unfold confirmedDelete. cbn. rewrite Hdel, Hl1. reflexivity. }
  split; [exact Hm2 |].
  split.
  { unfold metricsLength. rewrite Hm2, Hl1.
    pose proof (length_splice_remove l1 Hj1). lia. }
  split.
  { rewrite Hm2, get_splice_remove by exact Hj1.
    destruct (EditingMetric.index cur <? j) eqn:Hlt.
    - rewrite Hlt. apply get_splice_replace_same. exact Hrange.
    - apply Z.ltb_ge in Hlt.
      replace (EditingMetric.index cur - 1 <? j) with false
        by (symmetry; apply Z.ltb_ge; lia).
      replace (EditingMetric.index cur - 1 + 1)
        with (EditingMetric.index cur) by lia.
      apply get_splice_replace_same. exact Hrange. }
  split.
  { intros k Hk Hki. rewrite Hm2, get_splice_remove by exact Hj1.
    replace (k <? j) with true by (symmetry; apply Z.ltb_lt; lia).
    apply get_splice_replace_other; assumption. }
  split; [reflexivity |]. split; [reflexivity |].
  unfold confirmedDelete. cbn. apply nextTask_saveMetric.
Qed.

(** X10.  Cancelling the prompt undoes an immediate delete request: from a
    state with the prompt closed, delete clicked and then cancelled gives
    back the very same state. *)
Theorem cancel_undoes_immediate_delete (idx : Z) (s : St) :
  deleteIsImmediate idx s = true ->
  deletingIdx s = noDeletingIdx ->
  cancelDelete (requestDeleteMetric idx s) = s.
Proof.
  intros Himm Hdel. unfold requestDeleteMetric. rewrite Himm.
  unfold cancelDelete, setDeletingIdx. cbn.
  destruct s as [pb cm ed dis tog task del]. cbn in *.
  rewrite Hdel. reflexivity.
Qed.

(** The commit puts into the list what the render was already showing:
    the committed list is as long as the displayed one was. *)
Lemma metricsLength_saveMetric_editing
    (target : Z) (s : St) (cur : EditingMetric.t) :
  curEditingMetric s = Some cur ->
  length (metrics (playbook (saveMetric newMetric timing target s))) =
  length (displayedMetrics s).
Proof.
  intros Hcur.
  rewrite (playbook_saveMetric_editing newMetric timing target s Hcur).
  unfold displayedMetrics. rewrite Hcur. cbn [metrics].
  rewrite !length_splice, length_map. reflexivity.
Qed.

(** The add branch of [saveMetric] shows the new draft after the rows the
    render had when the updater has run, and after the committed list of
    that render when it has not. *)
Lemma length_displayedMetrics_after_pending_add
    (target : Z) (s : St) (cur : EditingMetric.t) (T : MetricType) :
  curEditingMetric s = Some cur ->
  pendingAdd T s ->
  length (displayedMetrics (saveMetric newMetric timing target s)) =
    S match timing with
      | atCall => length (displayedMetrics s)
      | queued => length (metrics (playbook s))
      end.
Proof.
  intros Hcur Hpend.
  destruct (saveMetric_pending_add_opens_at_length newMetric timing target
              Hcur Hpend) as [Hed _].
  pose proof (metricsLength_saveMetric_editing target s Hcur) as Hlen.
  pose proof (length_splice_replace_bounds (EditingMetric.index cur)
                (Metric.withTarget (EditingMetric.metric cur) target)
                (metrics (playbook s))) as Hbounds.
  assert (Hpost : length (metrics (playbook
                            (saveMetric newMetric timing target s))) =
                  length (JsArray.splice (EditingMetric.index cur) 1
                            [Metric.withTarget (EditingMetric.metric cur) target]
                            (metrics (playbook s)))).
  { rewrite (playbook_saveMetric_editing newMetric timing target s Hcur).
    reflexivity. }
  unfold displayedMetrics at 1. rewrite Hed.
  cbn [EditingMetric.index EditingMetric.metric].
  rewrite length_splice, length_map. cbn [length].
  unfold metricsLength.
  set (len' := length (metrics (playbook
                                  (saveMetric newMetric timing target s)))) in *.
  destruct timing.
  - rewrite actualStart_inside by lia. lia.
  - rewrite actualStart_inside by lia. lia.
Qed.

(** X11.  An add chosen while the control was enabled never shows more
    than four rows, whenever the updater of [setPlaybook] runs.  The add
    flow (the new draft opens at once with no editor open, and after the
    save of the open editor otherwise) shows one row more than before at
    most; exactly one more with no editor open, and with an editor open
    when the updater has run by the time [length] is read or the open
    draft is a committed metric.  With the updater still queued and the
    open draft a new one at the end of the list, the number of rows stays
    the same. *)
Theorem add_flow_keeps_ceiling (T : MetricType) (target : Z) (s : St) :
  addMetricDisabled s = false ->
  let s' :=
    match curEditingMetric s with
    | None => requestAddMetric newMetric T s
    | Some _ =>
        saveMetric newMetric timing target (requestAddMetric newMetric T s)
    end in
  (length (displayedMetrics s') <= S (length (displayedMetrics s)))%nat /\
  (length (displayedMetrics s') <= 4)%nat /\
  (curEditingMetric s = None ->
   length (displayedMetrics s') = S (length (displayedMetrics s))) /\
  (forall cur,
     curEditingMetric s = Some cur ->
     timing = atCall \/ 0 <= EditingMetric.index cur < metricsLength s ->
     length (displayedMetrics s') = S (length (displayedMetrics s))) /\
  (forall cur,
     curEditingMetric s = Some cur ->
     timing = queued ->
     EditingMetric.index cur = metricsLength s ->
     length (displayedMetrics s') = length (displayedMetrics s)).
Proof.
  intros Hen. cbv zeta.
  assert (Hlt : (length (displayedMetrics s) < 4)%nat).
  { unfold addMetricDisabled in Hen. apply orb_false_iff in Hen.
    destruct Hen as [_ Hfour]. apply Nat.leb_gt in Hfour. exact Hfour. }
  destruct (curEditingMetric s) as [cur |] eqn:Hcur.
  - set (s1 := requestAddMetric newMetric T s).
    assert (Hcur1 : curEditingMetric s1 = Some cur)
      by (subst s1; unfold requestAddMetric; rewrite Hcur; exact Hcur).
    assert (Hpend : pendingAdd T s1).
    { exists (Task.mk add (Some T) None). subst s1.
      unfold requestAddMetric. rewrite Hcur. repeat split. }
    assert (Hpb1 : playbook s1 = playbook s)
      by (subst s1; unfold requestAddMetric; rewrite Hcur; reflexivity).
    assert (Hdisp : displayedMetrics s1 = displayedMetrics s).
    { unfold displayedMetrics. rewrite Hcur1, Hcur, Hpb1. reflexivity. }
    pose proof (length_displayedMetrics_after_pending_add target Hcur1 Hpend)
      as Hrows.
    rewrite Hdisp, Hpb1 in Hrows.
    assert (Hshown : length (displayedMetrics s) =
                     length (JsArray.splice (EditingMetric.index cur) 1
                               [EditingMetric.metric cur]
                               (map Some (metrics (playbook s)))))
      by (unfold displayedMetrics; rewrite Hcur; reflexivity).
    pose proof (length_splice_replace_bounds (EditingMetric.index cur)
                  (EditingMetric.metric cur)
                  (map Some (metrics (playbook s)))) as Hbounds.
    rewrite length_map in Hbounds.
    split; [destruct timing; lia |].
    split; [destruct timing; lia |].
    split; [discriminate |].
    split.
    + intros cur0 Hcur0 Hcurrent. injection Hcur0 as Hcur0. subst cur0.
      destruct Hcurrent as [Hat | Hin].
      * rewrite Hat in Hrows |- *. exact Hrows.
      * unfold metricsLength in Hin.
        rewrite length_splice_replace in Hshown
          by (rewrite length_map; exact Hin).
        rewrite length_map in Hshown.
        destruct timing; lia.
    + intros cur0 Hcur0 Hq Hend. injection Hcur0 as Hcur0. subst cur0.
      unfold metricsLength in Hend.
      rewrite Hend in Hshown.
      rewrite <- (length_map Some (metrics (playbook s))) in Hshown at 1.
      rewrite length_splice_append, length_map in Hshown.
      rewrite Hq in Hrows |- *. lia.
  - assert (Hone : length (displayedMetrics (requestAddMetric newMetric T s)) =
                   S (length (displayedMetrics s))).
    { unfold requestAddMetric. rewrite Hcur.
      unfold displayedMetrics. rewrite Hcur. cbn. unfold metricsLength.
      rewrite <- (length_map Some (metrics (playbook s))).
      rewrite length_splice_append. reflexivity. }
    split; [lia |]. split; [lia |]. split; [intros _; exact Hone |].
    split; intros cur0 Hcur0; discriminate.
Qed.

(** One handler call: the playbook changes only together with the change
    flag, the flag is never lowered, the [disabled] prop is not touched. *)
Lemma handle_changes_playbook_only_with_flag (e : Event) (s : St) :
  (playbook (handle newMetric timing e s) = playbook s \/
   changesMade (handle newMetric timing e s) = true) /\
  (changesMade s = true -> changesMade (handle newMetric timing e s) = true) /\
  disabled (handle newMetric timing e s) = disabled s.
Proof.
  destruct e as [T | idx | idx | f | target | | |]; cbn [handle].
  - unfold requestAddMetric, addMetric.
    destruct (curEditingMetric s); cbn; auto.
  - unfold requestEditMetric. destruct (curEditingMetric s); cbn; auto.
  - unfold requestDeleteMetric. destruct (deleteIsImmediate idx s); cbn; auto.
  - unfold setMetric. cbn. auto.
  - unfold saveMetric, commitDraft, addMetric.
    destruct (curEditingMetric s) as [cur |];
      (destruct (nextTask s) as [t |]; [destruct (Task.type t) |]);
      cbn; auto.
  - unfold saveFailed. cbn. auto.
  - unfold confirmedDelete. cbn. auto.
  - unfold cancelDelete. cbn. auto.
Qed.

(** X12.  Over any sequence of events the playbook differs from the one
    the sequence started with only if the change flag is raised; the flag,
    once raised, is never lowered; the [disabled] prop is never written. *)
Theorem run_changes_playbook_only_with_flag (es : list Event) (s : St) :
  (playbook (run newMetric timing es s) = playbook s \/
   changesMade (run newMetric timing es s) = true) /\
  (changesMade s = true -> changesMade (run newMetric timing es s) = true) /\
  disabled (run newMetric timing es s) = disabled s.
Proof.
  revert s. induction es as [| e es IH]; intros s.
  - cbn. auto.
  - change (run newMetric timing (e :: es) s)
      with (run newMetric timing es (handle newMetric timing e s)).
    destruct (IH (handle newMetric timing e s)) as [Hpb [Hflag Hdis]].
    destruct (handle_changes_playbook_only_with_flag e s)
      as [Hpb1 [Hflag1 Hdis1]].
    split.
    + destruct Hpb as [Hsame | Hraised]; [| right; exact Hraised].
      destruct Hpb1 as [Hsame1 | Hraised1].
      * left. congruence.
      * right. apply Hflag. exact Hraised1.
    + split; [intros Hs; apply Hflag, Hflag1, Hs | congruence].
Qed.

Lemma handle_metricsLength (e : Event) (s : St) :
  metricsLength s - 1 <= metricsLength (handle newMetric timing e s)
    <= metricsLength s + 1 /\
  (isModalConfirm e = false ->
   metricsLength s <= metricsLength (handle newMetric timing e s)).
Proof.
  unfold metricsLength.
  destruct e as [T | idx | idx | f | target | | |]; cbn [handle isModalConfirm].
  - unfold requestAddMetric, addMetric.
    destruct (curEditingMetric s); cbn; lia.
  - unfold requestEditMetric. destruct (curEditingMetric s); cbn; lia.
  - unfold requestDeleteMetric. destruct (deleteIsImmediate idx s); cbn; lia.
  - unfold setMetric. cbn. lia.
  - destruct (curEditingMetric s) as [cur |] eqn:Hcur.
    + rewrite (playbook_saveMetric_editing newMetric timing target s Hcur).
      cbn [metrics].
      pose proof (length_splice_replace_bounds (EditingMetric.index cur)
                    (Metric.withTarget (EditingMetric.metric cur) target)
                    (metrics (playbook s))).
      lia.
    + rewrite (playbook_saveMetric_idle newMetric timing target s Hcur). lia.
  - unfold saveFailed. cbn. lia.
  - unfold confirmedDelete. cbn.
    pose proof (length_splice_remove_bounds (deletingIdx s)
                  (metrics (playbook s))).
    split; [lia | discriminate].
  - unfold cancelDelete. cbn. lia.
Qed.

(** X13.  Every event changes the number of committed metrics by one at
    most, and only the confirm button of the prompt can lower it: over
    any sequence of events without a confirm the list never gets
    shorter. *)
Theorem metrics_shrink_only_on_confirm (es : list Event) (s : St) :
  (forall e,
     metricsLength s - 1 <= metricsLength (handle newMetric timing e s)
       <= metricsLength s + 1) /\
  (forallb (fun e => negb (isModalConfirm e)) es = true ->
   metricsLength s <= metricsLength (run newMetric timing es s)).
Proof.
  split; [intros e; apply handle_metricsLength |].
  revert s. induction es as [| e es IH]; intros s Hno.
  - cbn. lia.
  - cbn [forallb] in Hno. apply andb_true_iff in Hno.
    destruct Hno as [He Hes]. apply negb_true_iff in He.
    change (run newMetric timing (e :: es) s)
      with (run newMetric timing es (handle newMetric timing e s)).
    specialize (IH (handle newMetric timing e s) Hes).
    destruct (handle_metricsLength e s) as [_ Hstep].
    specialize (Hstep He). lia.
Qed.

(** X14.  The prompt opens in two ways only: a delete click that is
    handled at once, or a save that finds a pending delete task with an
    index; it then stands at the requested index. *)
Theorem prompt_opens_only_on_delete_request (e : Event) (s : St) :
  confirmModalShown s = false ->
  confirmModalShown (handle newMetric timing e s) = true ->
  (exists idx,
     e = ClickDelete idx /\ deleteIsImmediate idx s = true /\
     deletingIdx (handle newMetric timing e s) = idx) \/
  (exists target j,
     e = EditorSave target /\ pendingAt delete j s /\
     deletingIdx (handle newMetric timing e s) = j).
Proof.
  unfold confirmModalShown. intros Hclosed Hopen.
  destruct e as [T | idx | idx | f | target | | |]; cbn [handle] in *.
  - unfold requestAddMetric, addMetric in Hopen.
    destruct (curEditingMetric s); cbn in Hopen; congruence.
  - unfold requestEditMetric in Hopen.
    destruct (curEditingMetric s); cbn in Hopen; congruence.
  - left. exists idx. unfold requestDeleteMetric in *.
    destruct (deleteIsImmediate idx s) eqn:Himm; cbn in *.
    + repeat split.
    + congruence.
  - unfold setMetric in Hopen. cbn in Hopen. congruence.
  - right. exists target.
    unfold saveMetric, commitDraft, addMetric in *.
    destruct (nextTask s) as [t |] eqn:Htask.
    + destruct (Task.type t) eqn:Hty.
      * destruct (curEditingMetric s); cbn in Hopen; congruence.
      * destruct (curEditingMetric s); cbn in Hopen; congruence.
      * unfold indexOrDefault in *.
        destruct (Task.index t) as [j |] eqn:Hidx.
        -- exists j. split; [reflexivity |]. split.
           ++ exists t. repeat split; assumption.
           ++ destruct (curEditingMetric s); reflexivity.
        -- destruct (curEditingMetric s); cbn in Hopen; discriminate.
    + destruct (curEditingMetric s); cbn in Hopen; congruence.
  - unfold saveFailed in Hopen. cbn in Hopen. congruence.
  - unfold confirmedDelete in Hopen. cbn in Hopen. discriminate.
  - unfold cancelDelete in Hopen. cbn in Hopen. discriminate.
Qed.

Lemma handle_deferred (e : Event) (s : St) :
  deferred e s = true ->
  exists t,
    handle newMetric timing e s =
      setSaveMetricToggle negb (setNextTask (Some t) s) /\
    forall s0 : St,
      deferred e s0 = true ->
      handle newMetric timing e s0 =
        setSaveMetricToggle negb (setNextTask (Some t) s0).
Proof.
  unfold deferred. intros Hdef.
  destruct e as [T | idx | idx | f | target | | |];
    destruct (curEditingMetric s) as [cur |] eqn:Hcur; try discriminate.
  - exists (Task.mk add (Some T) None). cbn [handle]. split.
    + unfold requestAddMetric. rewrite Hcur. reflexivity.
    + intros s0 H0. unfold requestAddMetric.
      destruct (curEditingMetric s0); [reflexivity | discriminate].
  - exists (Task.mk edit None (Some idx)). cbn [handle]. split.
    + unfold requestEditMetric. rewrite Hcur. reflexivity.
    + intros s0 H0. unfold requestEditMetric.
      destruct (curEditingMetric s0); [reflexivity | discriminate].
  - exists (Task.mk delete None (Some idx)). cbn [handle].
    apply negb_true_iff in Hdef. split.
    + unfold requestDeleteMetric. rewrite Hdef. reflexivity.
    + intros s0 H0. unfold requestDeleteMetric.
      destruct (curEditingMetric s0); [| discriminate].
      apply negb_true_iff in H0. rewrite H0. reflexivity.
Qed.

(** X15.  There is one pending task at most and the last request wins:
    of two requests put off one after the other, only the second is
    pending; nothing else has changed, and the save signal, flipped
    twice, is back at its value from before the first request. *)
Theorem deferred_requests_overwrite (e1 e2 : Event) (s : St) :
  deferred e1 s = true ->
  deferred e2 s = true ->
  let s' := handle newMetric timing e2 (handle newMetric timing e1 s) in
  nextTask s' = nextTask (handle newMetric timing e2 s) /\
  saveMetricToggle s' = saveMetricToggle s /\
  s' = setNextTask (nextTask (handle newMetric timing e2 s)) s.
Proof.
  intros H1 H2. cbv zeta.
  destruct (handle_deferred e1 s H1) as [t1 [Heq1 _]].
  destruct (handle_deferred e2 s H2) as [t2 [Heq2 Hgen2]].
  assert (H2' : deferred e2 (handle newMetric timing e1 s) = true).
  { rewrite Heq1. unfold deferred, deleteIsImmediate in *. cbn.
    exact H2. }
  rewrite (Hgen2 _ H2'), Heq1, Heq2. cbn.
  split; [reflexivity |].
  split; [apply negb_involutive |].
  unfold setSaveMetricToggle, setNextTask. cbn.
  rewrite negb_involutive. reflexivity.
Qed.

(** X16.  A request the editor turns down leaves no trace but the flipped
    save signal: with no task pending before, request and failed save
    give the starting state with only [saveMetricToggle] negated, so a
    later save closes the editor and does nothing more. *)
Theorem vetoed_request_leaves_only_the_signal (e : Event) (s : St) :
  deferred e s = true ->
  nextTask s = None ->
  saveFailed (handle newMetric timing e s) = setSaveMetricToggle negb s.
Proof.
  intros Hdef Htask.
  destruct (handle_deferred e s Hdef) as [t [Heq _]]. rewrite Heq.
  unfold saveFailed, setSaveMetricToggle, setNextTask. cbn.
  rewrite Htask. reflexivity.
Qed.

(** X17.  [confirmedDelete] away from the list: with [deletingIdx] at or
    past the end nothing is removed, the playbook is as before; with the
    sentinel [-1], which only the [show] guard of the prompt keeps from
    being confirmed, the last metric would go. *)
Theorem confirmedDelete_outside_the_list (s : St) :
  (metricsLength s <= deletingIdx s ->
   playbook (confirmedDelete s) = playbook s) /\
  (deletingIdx s = noDeletingIdx ->
   metrics (playbook (confirmedDelete s)) =
   removelast (metrics (playbook s))) /\
  (deletingIdx s = noDeletingIdx -> confirmModalShown s = false).
Proof.
  unfold confirmedDelete, metricsLength, noDeletingIdx. cbn.
  split.
  - intros Hout. rewrite splice_remove_outside by exact Hout.
    destruct (playbook s). reflexivity.
  - split.
    + intros Hd. rewrite Hd. apply splice_remove_minus_one.
    + intros Hd. unfold confirmModalShown. rewrite Hd. reflexivity.
Qed.

(** X18.  Opening a committed metric from the idle state shows nothing
    new and marks nothing as changed: the draft equals the committed
    metric, the displayed list is the committed list, the playbook and the
    change flag are as before; only the row at [idx] becomes the editor
    row. *)
Theorem requestEditMetric_idle_opens_a_copy
    (idx : Z) (s : St) (m : Metric.t) :
  curEditingMetric s = None ->
  JsArray.get (metrics (playbook s)) idx = Some m ->
  let s' := requestEditMetric idx s in
  curEditingMetric s' = Some (EditingMetric.mk idx (Some m)) /\
  editorOpenAt idx s' /\
  displayedMetrics s' = displayedMetrics s /\
  playbook s' = playbook s /\
  changesMade s' = changesMade s /\
  nextTask s' = nextTask s /\
  saveMetricToggle s' = saveMetricToggle s.
Proof.
  intros Hcur Hget. cbv zeta.
  destruct (requestEditMetric_idle_opens idx s Hcur Hget) as [Hed Hopen].
  split; [exact Hed |]. split; [exact Hopen |].
  split.
  { unfold displayedMetrics at 1. rewrite Hed.
    cbn [EditingMetric.index EditingMetric.metric].
    unfold displayedMetrics. rewrite Hcur.
    unfold requestEditMetric. rewrite Hcur. cbn [playbook setCurEditingMetric].
    apply splice_replace_same_element.
    rewrite get_map, Hget. reflexivity. }
  unfold requestEditMetric. rewrite Hcur. repeat split.
Qed.

End MoreProperties.

(** ** The further properties on concrete runs *)

Lemma deleteMessage_existing_iff_witness :
  deleteMessage Sample.deleting1 = deleteExistingMessage /\
  deleteMessage Scenario.deletingUnsaved = deleteBaseMessage.
Proof.
  split.
  - apply (proj2 (@deleteMessage_existing_iff _ Sample.deleting1)).
    exists Sample.metricB. split; [reflexivity | discriminate].
  - destruct (deleteMessage Scenario.deletingUnsaved) eqn:Hmsg;
      [reflexivity |].
    apply (proj1 (@deleteMessage_existing_iff _ Scenario.deletingUnsaved))
      in Hmsg.
    destruct Hmsg as [m [Hget Hid]].
    injection Hget as Hget. subst m. exfalso. apply Hid. reflexivity.
Defined.

Lemma otherTitles_skips_own_row_witness :
  0 <= 1 /\
  otherTitles 1 Sample.editing1 =
    map Metric.title [Sample.metricA; Sample.metricC].
Proof.
  assert (Hidx : 0 <= 1) by lia.
  split; [exact Hidx |].
  exact (proj1 (@otherTitles_skips_own_row _ 1 Sample.editing1 Hidx)).
Defined.

Lemma rows_have_one_editor_at_most_witness :
  length (rows Sample.editing1) = 3%nat /\
  (forall k i, nth_error (rows Sample.editing1) k = Some (MetricEdit i) ->
     k = 1%nat) /\
  curEditingMetric Sample.editing1 =
    Some (EditingMetric.mk 1 (Some Sample.metricB)) /\
  0 <= 1 <= metricsLength Sample.editing1 /\
  nth_error (rows Sample.editing1) 1 = Some (MetricEdit 1) /\
  nth_error (rows Sample.editing1) 2 = Some (MetricView 2).
Proof.
  destruct (@rows_have_one_editor_at_most _ Sample.editing1)
    as [Hlen [Hone [_ [_ [Hthere Hview]]]]].
  assert (Hcur : curEditingMetric Sample.editing1 =
                 Some (EditingMetric.mk 1 (Some Sample.metricB)))
    by reflexivity.
  assert (Hrange : 0 <= 1 <= metricsLength Sample.editing1)
    by (vm_compute; split; discriminate).
  split; [exact Hlen |].
  split.
  { intros k i Hk.
    exact (proj1 (Hone k 1%nat i 1 Hk (Hthere _ Hcur Hrange))). }
  split; [exact Hcur |]. split; [exact Hrange |].
  split; [exact (Hthere _ Hcur Hrange) |].
  apply (Hview 2%nat).
  - vm_compute. lia.
  - intros cur Hc. rewrite Hcur in Hc. injection Hc as Hc. subst cur.
    discriminate.
Defined.

Lemma displayedMetrics_shows_draft_in_place_witness :
  curEditingMetric (setMetric Scenario.retitle Sample.editing1) =
    Some (EditingMetric.mk 1 (Some (Scenario.retitle (Some Sample.metricB)))) /\
  editorOpenAt 1 (setMetric Scenario.retitle Sample.editing1) /\
  JsArray.get (displayedMetrics (setMetric Scenario.retitle Sample.editing1)) 1 =
    Some (Some (Scenario.retitle (Some Sample.metricB))) /\
  JsArray.get (displayedMetrics (setMetric Scenario.retitle Sample.editing1)) 0 =
    Some (Some Sample.metricA).
Proof.
  assert (Hcur : curEditingMetric (setMetric Scenario.retitle Sample.editing1) =
            Some (EditingMetric.mk 1
                    (Some (Scenario.retitle (Some Sample.metricB)))))
    by reflexivity.
  assert (Hopen : editorOpenAt 1 (setMetric Scenario.retitle Sample.editing1))
    by (vm_compute; tauto).
  split; [exact Hcur |]. split; [exact Hopen |].
  destruct (@displayedMetrics_shows_draft_in_place _
              (setMetric Scenario.retitle Sample.editing1) _ Hcur Hopen)
    as [Hat Hother].
  split; [exact Hat |].
  apply (Hother 0). discriminate.
Defined.

Lemma add_then_save_appends_witness :
  curEditingMetric Sample.idle = None /\
  nextTask Sample.idle = None /\
  metrics (playbook (saveMetric Sample.newMetric atCall 7
                       (requestAddMetric Sample.newMetric Duration Sample.idle))) =
    [Sample.metricA; Sample.metricB; Sample.metricC;
     Scenario.savedDuration7].
Proof.
  assert (Hcur : curEditingMetric Sample.idle = None) by reflexivity.
  assert (Htask : nextTask Sample.idle = None) by reflexivity.
  split; [exact Hcur |]. split; [exact Htask |].
  exact (proj1 (@add_then_save_appends _ Sample.newMetric atCall Duration 7
                  Sample.idle Hcur Htask)).
Defined.

Lemma edit_then_save_updates_target_witness :
  curEditingMetric Sample.idle = None /\
  nextTask Sample.idle = None /\
  JsArray.get (metrics (playbook Sample.idle)) 1 = Some Sample.metricB /\
  metrics (playbook (saveMetric Sample.newMetric atCall 20
                       (requestEditMetric 1 Sample.idle))) =
    metrics (playbook Sample.idle) /\
  JsArray.get (metrics (playbook (saveMetric Sample.newMetric atCall 25
                                    (requestEditMetric 1 Sample.idle)))) 1 =
    Some (Metric.withTarget (Some Sample.metricB) 25).
Proof.
  assert (Hcur : curEditingMetric Sample.idle = None) by reflexivity.
  assert (Htask : nextTask Sample.idle = None) by reflexivity.
  assert (Hget : JsArray.get (metrics (playbook Sample.idle)) 1 =
                 Some Sample.metricB) by reflexivity.
  split; [exact Hcur |]. split; [exact Htask |]. split; [exact Hget |].
  destruct (@edit_then_save_updates_target _ Sample.newMetric atCall 1 20
              Sample.idle _ Hcur Htask Hget) as [_ [_ [_ [_ Hsame]]]].
  destruct (@edit_then_save_updates_target _ Sample.newMetric atCall 1 25
              Sample.idle _ Hcur Htask Hget) as [Hat _].
  split; [apply Hsame; reflexivity | exact Hat].
Defined.

Lemma setMetric_rewrites_only_the_draft_witness :
  curEditingMetric Sample.editing1 =
    Some (EditingMetric.mk 1 (Some Sample.metricB)) /\
  editorOpenAt 1 Sample.editing1 /\
  playbook (setMetric Scenario.retitle Sample.editing1) =
    playbook Sample.editing1 /\
  JsArray.get
    (metrics (playbook (saveMetric Sample.newMetric atCall 5
                          (setMetric Scenario.retitle Sample.editing1)))) 1 =
    Some Scenario.metricB2_5.
Proof.
  assert (Hcur : curEditingMetric Sample.editing1 =
                 Some (EditingMetric.mk 1 (Some Sample.metricB)))
    by reflexivity.
  assert (Hopen : editorOpenAt 1 Sample.editing1) by (vm_compute; tauto).
  split; [exact Hcur |]. split; [exact Hopen |].
  destruct (@setMetric_rewrites_only_the_draft _ Sample.newMetric atCall
              Scenario.retitle 5 Sample.editing1 _ Hcur Hopen)
    as [_ [_ [Hpb [_ [_ [_ Hat]]]]]].
  split; [exact Hpb | exact Hat].
Defined.

Lemma add_then_delete_discards_draft_witness :
  curEditingMetric Sample.idle = None /\
  playbook (confirmedDelete
              (requestDeleteMetric 3
                 (requestAddMetric Sample.newMetric Currency Sample.idle))) =
    playbook Sample.idle /\
  changesMade (confirmedDelete
                 (requestDeleteMetric 3
                    (requestAddMetric Sample.newMetric Currency Sample.idle))) =
    true.
Proof.
  assert (Hcur : curEditingMetric Sample.idle = None) by reflexivity.
  split; [exact Hcur |].
  destruct (@add_then_delete_discards_draft _ Sample.newMetric Currency
              Sample.idle Hcur)
    as [_ [_ [_ [_ [_ [Hpb [_ [_ Hflag]]]]]]]].
  split; [exact Hpb | exact Hflag].
Defined.

Lemma save_then_confirm_pending_delete_witness :
  curEditingMetric Sample.editing1_delete2 =
    Some (EditingMetric.mk 1 (Some Sample.metricB)) /\
  editorOpenAt 1 Sample.editing1_delete2 /\
  pendingAt delete 2 Sample.editing1_delete2 /\
  1 <> 2 /\
  0 <= 2 < metricsLength Sample.editing1_delete2 /\
  metrics (playbook (confirmedDelete
                       (saveMetric Sample.newMetric atCall 5
                          Sample.editing1_delete2))) =
    [Sample.metricA; Scenario.metricB5] /\
  curEditingMetric (confirmedDelete
                      (saveMetric Sample.newMetric atCall 5
                         Sample.editing1_delete2)) = None.
Proof.
  assert (Hcur : curEditingMetric Sample.editing1_delete2 =
                 Some (EditingMetric.mk 1 (Some Sample.metricB)))
    by reflexivity.
  assert (Hopen : editorOpenAt 1 Sample.editing1_delete2)
    by (vm_compute; tauto).
  assert (Hpend : pendingAt delete 2 Sample.editing1_delete2)
    by (exists (Task.mk delete None (Some 2)); repeat split).
  assert (Hne : 1 <> 2) by discriminate.
  assert (Hj : 0 <= 2 < metricsLength Sample.editing1_delete2)
    by (vm_compute; split; [discriminate | reflexivity]).
  split; [exact Hcur |]. split; [exact Hopen |]. split; [exact Hpend |].
  split; [exact Hne |]. split; [exact Hj |].
  destruct (@save_then_confirm_pending_delete _ Sample.newMetric atCall 5
              Sample.editing1_delete2 _ 2 Hcur Hopen Hpend Hne Hj)
    as [Hlist [_ [_ [_ [Hed _]]]]].
  split; [exact Hlist | exact Hed].
Defined.

Lemma cancel_undoes_immediate_delete_witness :
  deleteIsImmediate 1 Sample.editing1 = true /\
  deletingIdx Sample.editing1 = noDeletingIdx /\
  cancelDelete (requestDeleteMetric 1 Sample.editing1) = Sample.editing1.
Proof.
  assert (Himm : deleteIsImmediate 1 Sample.editing1 = true) by reflexivity.
  assert (Hdel : deletingIdx Sample.editing1 = noDeletingIdx) by reflexivity.
  split; [exact Himm |]. split; [exact Hdel |].
  exact (@cancel_undoes_immediate_delete _ 1 Sample.editing1 Himm Hdel).
Defined.

Lemma add_flow_keeps_ceiling_witness :
  addMetricDisabled Scenario.addingThird = false /\
  (length (displayedMetrics
             (saveMetric Sample.newMetric queued 7
                (requestAddMetric Sample.newMetric Integer
                   Scenario.addingThird))) <= 4)%nat /\
  length (displayedMetrics
            (saveMetric Sample.newMetric atCall 7
               (requestAddMetric Sample.newMetric Integer
                  Scenario.addingThird))) =
    S (length (displayedMetrics Scenario.addingThird)) /\
  length (displayedMetrics
            (saveMetric Sample.newMetric queued 7
               (requestAddMetric Sample.newMetric Integer
                  Scenario.addingThird))) =
    length (displayedMetrics Scenario.addingThird).
Proof.
  assert (Hen : addMetricDisabled Scenario.addingThird = false)
    by reflexivity.
  assert (Hcur : curEditingMetric Scenario.addingThird =
                 Some (EditingMetric.mk 2 (Some (Sample.newMetric Duration))))
    by reflexivity.
  split; [exact Hen |].
  destruct (@add_flow_keeps_ceiling _ Sample.newMetric queued Integer 7
              Scenario.addingThird Hen) as [_ [Hfour [_ [_ Hsame]]]].
  destruct (@add_flow_keeps_ceiling _ Sample.newMetric atCall Integer 7
              Scenario.addingThird Hen) as [_ [_ [_ [Hmore _]]]].
  split; [exact Hfour |].
  split.
  - exact (Hmore _ Hcur (or_introl eq_refl)).
  - exact (Hsame _ Hcur eq_refl eq_refl).
Defined.

Lemma run_changes_playbook_only_with_flag_witness :
  changesMade Sample.idle = false /\
  (playbook (run Sample.newMetric atCall
               [ClickEdit 1; ClickDelete 2; EditorSave 5; ModalConfirm]
               Sample.idle) = playbook Sample.idle \/
   changesMade (run Sample.newMetric atCall
                  [ClickEdit 1; ClickDelete 2; EditorSave 5; ModalConfirm]
                  Sample.idle) = true).
Proof.
  split; [reflexivity |].
  exact (proj1 (@run_changes_playbook_only_with_flag _ Sample.newMetric atCall
                  [ClickEdit 1; ClickDelete 2; EditorSave 5; ModalConfirm]
                  Sample.idle)).
Defined.

Lemma metrics_shrink_only_on_confirm_witness :
  forallb (fun e => negb (isModalConfirm e))
    [ClickAdd Integer; EditorSave 5; ClickEdit 0; EditorSaveFailed] = true /\
  metricsLength Sample.idle <=
  metricsLength
    (run Sample.newMetric atCall
       [ClickAdd Integer; EditorSave 5; ClickEdit 0; EditorSaveFailed]
       Sample.idle).
Proof.
  assert (Hno : forallb (fun e => negb (isModalConfirm e))
            [ClickAdd Integer; EditorSave 5; ClickEdit 0; EditorSaveFailed]
          = true) by reflexivity.
  split; [exact Hno |].
  exact (proj2 (@metrics_shrink_only_on_confirm _ Sample.newMetric atCall
                  [ClickAdd Integer; EditorSave 5; ClickEdit 0;
                   EditorSaveFailed] Sample.idle) Hno).
Defined.

Lemma prompt_opens_only_on_delete_request_witness :
  confirmModalShown Sample.editing1_delete2 = false /\
  confirmModalShown
    (handle Sample.newMetric atCall (EditorSave 5) Sample.editing1_delete2) = true /\
  ((exists idx,
      EditorSave 5 = ClickDelete idx /\
      deleteIsImmediate idx Sample.editing1_delete2 = true /\
      deletingIdx
        (handle Sample.newMetric atCall (EditorSave 5) Sample.editing1_delete2) = idx) \/
   (exists target j,
      EditorSave 5 = EditorSave target /\
      pendingAt delete j Sample.editing1_delete2 /\
      deletingIdx
        (handle Sample.newMetric atCall (EditorSave 5) Sample.editing1_delete2) = j)).
Proof.
  assert (Hclosed : confirmModalShown Sample.editing1_delete2 = false)
    by reflexivity.
  assert (Hopen : confirmModalShown
            (handle Sample.newMetric atCall (EditorSave 5) Sample.editing1_delete2)
          = true) by reflexivity.
  split; [exact Hclosed |]. split; [exact Hopen |].
  exact (@prompt_opens_only_on_delete_request _ Sample.newMetric atCall
           (EditorSave 5) Sample.editing1_delete2 Hclosed Hopen).
Defined.

Lemma deferred_requests_overwrite_witness :
  deferred (ClickEdit 0) Sample.editing1 = true /\
  deferred (ClickDelete 2) Sample.editing1 = true /\
  nextTask (handle Sample.newMetric atCall (ClickDelete 2)
              (handle Sample.newMetric atCall (ClickEdit 0) Sample.editing1)) =
    Some (Task.mk delete None (Some 2)) /\
  saveMetricToggle (handle Sample.newMetric atCall (ClickDelete 2)
                      (handle Sample.newMetric atCall (ClickEdit 0) Sample.editing1)) =
    saveMetricToggle Sample.editing1.
Proof.
  assert (H1 : deferred (ClickEdit 0) Sample.editing1 = true) by reflexivity.
  assert (H2 : deferred (ClickDelete 2) Sample.editing1 = true)
    by reflexivity.
  split; [exact H1 |]. split; [exact H2 |].
  destruct (@deferred_requests_overwrite _ Sample.newMetric atCall (ClickEdit 0)
              (ClickDelete 2) Sample.editing1 H1 H2) as [Htask [Htog _]].
  split; [exact Htask | exact Htog].
Defined.

Lemma vetoed_request_leaves_only_the_signal_witness :
  deferred (ClickAdd Currency) Sample.editing1 = true /\
  nextTask Sample.editing1 = None /\
  saveFailed (handle Sample.newMetric atCall (ClickAdd Currency) Sample.editing1) =
    setSaveMetricToggle negb Sample.editing1.
Proof.
  assert (Hdef : deferred (ClickAdd Currency) Sample.editing1 = true)
    by reflexivity.
  assert (Htask : nextTask Sample.editing1 = None) by reflexivity.
  split; [exact Hdef |]. split; [exact Htask |].
  exact (@vetoed_request_leaves_only_the_signal _ Sample.newMetric atCall
           (ClickAdd Currency) Sample.editing1 Hdef Htask).
Defined.

Lemma confirmedDelete_outside_the_list_witness :
  metricsLength (requestDeleteMetric 3 Scenario.addingFourth) <=
    deletingIdx (requestDeleteMetric 3 Scenario.addingFourth) /\
  playbook (confirmedDelete (requestDeleteMetric 3 Scenario.addingFourth)) =
    playbook Scenario.addingFourth /\
  deletingIdx Sample.idle = noDeletingIdx /\
  metrics (playbook (confirmedDelete Sample.idle)) =
    [Sample.metricA; Sample.metricB].
Proof.
  assert (Hout : metricsLength (requestDeleteMetric 3 Scenario.addingFourth)
                 <= deletingIdx (requestDeleteMetric 3 Scenario.addingFourth))
    by (vm_compute; discriminate).
  assert (Hd : deletingIdx Sample.idle = noDeletingIdx) by reflexivity.
  split; [exact Hout |].
  split.
  - exact (proj1 (@confirmedDelete_outside_the_list _
                    (requestDeleteMetric 3 Scenario.addingFourth)) Hout).
  - split; [exact Hd |].
    exact (proj1 (proj2 (@confirmedDelete_outside_the_list _ Sample.idle))
             Hd).
Defined.

Lemma requestEditMetric_idle_opens_a_copy_witness :
  curEditingMetric Sample.idle = None /\
  JsArray.get (metrics (playbook Sample.idle)) 1 = Some Sample.metricB /\
  displayedMetrics (requestEditMetric 1 Sample.idle) =
    displayedMetrics Sample.idle /\
  changesMade (requestEditMetric 1 Sample.idle) = false.
Proof.
  assert (Hcur : curEditingMetric Sample.idle = None) by reflexivity.
  assert (Hget : JsArray.get (metrics (playbook Sample.idle)) 1 =
                 Some Sample.metricB) by reflexivity.
  split; [exact Hcur |]. split; [exact Hget |].
  destruct (@requestEditMetric_idle_opens_a_copy _ 1 Sample.idle _ Hcur Hget)
    as [_ [_ [Hdisp [_ [Hflag _]]]]].
  split; [exact Hdisp | exact Hflag].
Defined.
